(** * Kowalski-AI/api: the pull-request analysis relay (main.go)

    A shallow embedding of the HTTP relay of [src/main.go] and the
    properties of its request/response contract.

    Modelling choices.
    - Go strings and byte slices are [string] (sequences of bytes).
    - A Go [error] is a value of type [error]; [io.EOF] is kept apart
      from every other error because [io.ReadAll] tells them apart.
    - A Go function that returns [(T, error)] returns [res T].
    - Everything outside the process (the .env file and the process
      environment, the hosting API, the LLM provider, the clock) is a
      [World]; it is fixed for the time of one request.
    - Statements run in the monad [M]: they read the [World], append
      to a trace of [Event]s, and end in an [Outcome]: a normal return,
      a process exit ([log.Fatal], i.e. [os.Exit(1)]) or a panic.  A
      handler that exits or panics has sent no response ([net/http]
      recovers the panic of a handler and drops the connection).
    - Library functions the program only calls ([encoding/json],
      [net/url] parsing inside [http.NewRequest]) are parameters of the
      development. *)

From Stdlib Require Import String Ascii ZArith List Bool Lia Arith DecimalString.
From Equations Require Import Equations.
Import ListNotations.
Open Scope string_scope.
Open Scope Z_scope.

Set Implicit Arguments.

(** ** Strings *)

Definition LF : string := String "010" "".

(** [fmt]'s [%d] verb on an [int]. *)
Definition itoa (n : Z) : string := NilZero.string_of_int (Z.to_int n).

(** [s[:n]] and [s[n:]], total: [n] is capped at the length of [s]. *)
Fixpoint take (n : nat) (s : string) : string :=
  match n, s with
  | S n', String c s' => String c (take n' s')
  | _, _ => EmptyString
  end.

Fixpoint drop (n : nat) (s : string) : string :=
  match n, s with
  | S n', String _ s' => drop n' s'
  | _, _ => s
  end.

(** [strings.Contains]. *)
Fixpoint Contains (s substr : string) : bool :=
  prefix substr s ||
  match s with
  | EmptyString => false
  | String _ s' => Contains s' substr
  end.

Definition is_lower (c : ascii) : bool :=
  ((97 <=? nat_of_ascii c) && (nat_of_ascii c <=? 122))%nat.
Definition is_upper (c : ascii) : bool :=
  ((65 <=? nat_of_ascii c) && (nat_of_ascii c <=? 90))%nat.
Definition to_upper (c : ascii) : ascii :=
  if is_lower c then ascii_of_nat (nat_of_ascii c - 32) else c.
Definition to_lower (c : ascii) : ascii :=
  if is_upper c then ascii_of_nat (nat_of_ascii c + 32) else c.

(** [textproto.CanonicalMIMEHeaderKey] on a key made of token
    characters (all the keys of this program are): the first letter and
    every letter after a hyphen in upper case, the others in lower
    case. *)
Fixpoint canonical_from (upper : bool) (s : string) : string :=
  match s with
  | EmptyString => EmptyString
  | String c s' =>
      String (if upper then to_upper c else to_lower c)
             (canonical_from (Ascii.eqb c "-") s')
  end.

Definition CanonicalMIMEHeaderKey (s : string) : string := canonical_from true s.

(** ** Errors and results *)

Inductive error : Type :=
| EOF                               (* io.EOF *)
| errorString (msg : string).       (* errors.New / fmt.Errorf *)

Definition Error (e : error) : string :=
  match e with
  | EOF => "EOF"
  | errorString msg => msg
  end.

(** [fmt.Errorf] with the format already expanded. *)
Definition fmt_Errorf (msg : string) : error := errorString msg.

Inductive res (A : Type) : Type :=
| Ok (a : A)
| Err (e : error).
Arguments Ok {A} a.
Arguments Err {A} e.

(** ** net/http data *)

(** [http.Header]: a map from canonical keys to their values. *)
Definition http_Header : Type := list (string * list string).

Fixpoint header_lookup (h : http_Header) (k : string) : option (list string) :=
  match h with
  | [] => None
  | (k', vs) :: h' => if String.eqb k' k then Some vs else header_lookup h' k
  end.

(** [Header.Get]: the first value of the key, [""] when there is none. *)
Definition Header_Get (h : http_Header) (key : string) : string :=
  match header_lookup h (CanonicalMIMEHeaderKey key) with
  | Some (v :: _) => v
  | _ => ""
  end.

(** [Header.Set]: the key now has exactly this value. *)
Definition Header_Set (h : http_Header) (key value : string) : http_Header :=
  let k := CanonicalMIMEHeaderKey key in
  (k, [value]) :: filter (fun kv => negb (String.eqb (fst kv) k)) h.

(** [Header.Del]. *)
Definition Header_Del (h : http_Header) (key : string) : http_Header :=
  let k := CanonicalMIMEHeaderKey key in
  filter (fun kv => negb (String.eqb (fst kv) k)) h.

(** [http.Request], inbound and outbound. *)
Record Request : Type := mkRequest {
  Method : string;
  URL : string;
  Header : http_Header;
  Body : string
}.

Definition MethodPost : string := "POST".
Definition StatusOK : Z := 200.
Definition StatusBadRequest : Z := 400.
Definition StatusUnauthorized : Z := 401.
Definition StatusMethodNotAllowed : Z := 405.
Definition StatusInternalServerError : Z := 500.

(** A response body as the transport hands it out: what it has ready
    at each read, a run of bytes and possibly an error signalled with
    them.  When the script is exhausted every further read is
    [(0, io.EOF)]. *)
Definition Reader : Type := list (string * option error).

(** [Read(buf)] with [len(buf) = n]: at most [n] bytes are handed out;
    when more are ready the rest, and the error that came with them,
    stay for the next read. *)
Definition Read (r : Reader) (n : nat) : string * option error * Reader :=
  match r with
  | [] => ("", Some EOF, [])
  | (data, err) :: rest =>
      if (String.length data <=? n)%nat then (data, err, rest)
      else (take n data, None, (drop n data, err) :: rest)
  end.

(** [io.ReadAll]: reads until an error; [io.EOF] is success. *)
Fixpoint io_ReadAll (r : Reader) : res string :=
  match r with
  | [] => Ok ""
  | (data, None) :: rest =>
      match io_ReadAll rest with
      | Ok more => Ok (data ++ more)
      | Err e => Err e
      end
  | (data, Some EOF) :: _ => Ok data
  | (data, Some e) :: _ => Err e
  end.

(** [http.Response] as far as the program looks at it. *)
Record Response : Type := mkResponse {
  StatusCode : Z;
  RespBody : Reader
}.

(** [http.ResponseWriter]: headers, the status once it is written, and
    the bytes written to the body. *)
Record ResponseWriter : Type := mkResponseWriter {
  w_Header : http_Header;
  w_Status : option Z;
  w_Body : string
}.

Definition newResponseWriter : ResponseWriter := mkResponseWriter [] None "".

Definition w_Header_Set (w : ResponseWriter) (key value : string) : ResponseWriter :=
  mkResponseWriter (Header_Set (w_Header w) key value) (w_Status w) (w_Body w).

(** [WriteHeader]: the first call fixes the status. *)
Definition WriteHeader (w : ResponseWriter) (code : Z) : ResponseWriter :=
  match w_Status w with
  | Some _ => w
  | None => mkResponseWriter (w_Header w) (Some code) (w_Body w)
  end.

(** [Write]: a write before [WriteHeader] sends status 200. *)
Definition Write (w : ResponseWriter) (data : string) : ResponseWriter :=
  let w' := WriteHeader w StatusOK in
  mkResponseWriter (w_Header w') (w_Status w') (w_Body w' ++ data).

(** [http.Error]. *)
Definition http_Error (w : ResponseWriter) (msg : string) (code : Z) : ResponseWriter :=
  let w := mkResponseWriter (Header_Del (w_Header w) "Content-Length") (w_Status w) (w_Body w) in
  let w := w_Header_Set w "Content-Type" "text/plain; charset=utf-8" in
  let w := w_Header_Set w "X-Content-Type-Options" "nosniff" in
  let w := WriteHeader w code in
  Write w (msg ++ LF).

(** ** go-openai data *)

Record ChatCompletionMessage : Type := mkMessage {
  Role : string;
  Content : string
}.

Record ChatCompletionRequest : Type := mkChatRequest {
  Model : string;
  Messages : list ChatCompletionMessage
}.

Record ChatCompletionChoice : Type := mkChoice {
  Message : ChatCompletionMessage
}.

Record ChatCompletionResponse : Type := mkChatResponse {
  Choices : list ChatCompletionChoice
}.

Definition openai_GPT4 : string := "gpt-4".
Definition openai_ChatMessageRoleUser : string := "user".

(** ** The program's own types *)

Record Config : Type := mkConfig {
  APIKey : string;
  OpenAIKey : string;
  GithubToken : string;
  Port : string
}.

Record PRAnalysisRequest : Type := mkPRAnalysisRequest {
  Owner : string;
  Repo : string;
  PRNumber : Z;
  ModelType : string
}.

Definition Time : Type := Z.

Record PRAnalysisResponse : Type := mkPRAnalysisResponse {
  Analysis : string;
  Timestamp : Time;
  ModelUsed : string
}.

(** ** The world, events and the monad *)

Record World : Type := mkWorld {
  dotenv : option error;          (* what loading the .env file answers *)
  environ : string -> string;     (* the process environment, "" when unset *)
  github : Request -> res Response;
  openai : string -> ChatCompletionRequest -> res ChatCompletionResponse;
  clock : Time
}.

Inductive Event : Type :=
| LogLine (line : string)
| GithubCall (req : Request)
| OpenAICall (key : string) (req : ChatCompletionRequest)
| BodyClosed.

(** The outbound network calls: the diff fetch and the provider call. *)
Definition is_outbound (e : Event) : bool :=
  match e with
  | GithubCall _ | OpenAICall _ _ => true
  | _ => false
  end.

Inductive Outcome (A : Type) : Type :=
| Done (a : A)
| Exit (code : Z)
| Panic (msg : string).
Arguments Done {A} a.
Arguments Exit {A} code.
Arguments Panic {A} msg.

Definition M (A : Type) : Type := World -> list Event * Outcome A.

Definition ret {A} (a : A) : M A := fun _ => ([], Done a).

Definition bind {A B} (m : M A) (k : A -> M B) : M B :=
  fun world =>
    let (t1, o) := m world in
    match o with
    | Done a => let (t2, o2) := k a world in ((t1 ++ t2)%list, o2)
    | Exit code => (t1, Exit code)
    | Panic msg => (t1, Panic msg)
    end.

Notation "x <- m ;; k" := (bind m (fun x => k))
  (at level 61, m at next level, right associativity).
Notation "m ;;; k" := (bind m (fun _ => k))
  (at level 61, right associativity).

Definition ask {A} (f : World -> A) : M A := fun world => ([], Done (f world)).
Definition emit (e : Event) : M unit := fun _ => ([e], Done tt).
Definition panic {A} (msg : string) : M A := fun _ => ([], Panic msg).

(** [defer]: the deferred call runs when the function returns or
    panics, not when the process exits. *)
Definition defer {A} (cleanup : M unit) (body : M A) : M A :=
  fun world =>
    let (t, o) := body world in
    match o with
    | Exit code => (t, Exit code)
    | _ => ((t ++ fst (cleanup world))%list, o)
    end.

Definition log_Printf (line : string) : M unit := emit (LogLine line).

(** [log.Fatal]: the line is logged, then [os.Exit(1)]. *)
Definition log_Fatal {A} (line : string) : M A :=
  fun _ => ([LogLine line], Exit 1).

Definition trace {A} (p : list Event * Outcome A) : list Event := fst p.
Definition outcome {A} (p : list Event * Outcome A) : Outcome A := snd p.
Definition no_outbound (t : list Event) : Prop := existsb is_outbound t = false.

(** ** The calls into the world *)

Definition godotenv_Load : M (option error) := ask dotenv.
Definition os_Getenv (name : string) : M string := ask (fun world => environ world name).
Definition time_Now : M Time := ask clock.

(** [http.Client.Do]: one outbound call to the hosting API. *)
Definition client_Do (req : Request) : M (res Response) :=
  emit (GithubCall req) ;;; ask (fun world => github world req).

(** [openai.Client.CreateChatCompletion]: one outbound call to the
    provider. *)
Definition client_CreateChatCompletion (key : string) (req : ChatCompletionRequest)
  : M (res ChatCompletionResponse) :=
  emit (OpenAICall key req) ;;; ask (fun world => openai world key req).

Definition Body_Close : M unit := emit BodyClosed.

(** [s[i]] on a slice: a run-time panic when [i] is out of range. *)
Definition slice_index {A} (s : list A) (i : nat) : M A :=
  match nth_error s i with
  | Some a => ret a
  | None =>
      panic ("runtime error: index out of range [" ++ itoa (Z.of_nat i)
             ++ "] with length " ++ itoa (Z.of_nat (List.length s)))
  end.

(** ** The read loop of [fetchPRChanges] (lines 142-154) *)

(** What is left in a reader: a measure that every read without an
    error makes smaller. *)
Fixpoint pending (r : Reader) : nat :=
  match r with
  | [] => O
  | (data, _) :: rest => S (String.length data + pending rest)
  end.

Lemma length_drop (n : nat) (s : string) :
  String.length (drop n s) = (String.length s - n)%nat.
Proof.
  revert s; induction n as [|n IH]; intros [|c s]; simpl; auto.
Qed.

Lemma Read_pending (r : Reader) (n : nat) chunk r' :
  (0 < n)%nat -> Read r n = (chunk, None, r') -> (pending r' < pending r)%nat.
Proof.
  intros Hn. destruct r as [|[data err] rest]; simpl; [discriminate|].
  destruct (String.length data <=? n)%nat eqn:Hlen; intros H; inversion H; subst; simpl.
  - lia.
  - apply Nat.leb_gt in Hlen. rewrite length_drop. lia.
Qed.

Definition inspect {A} (a : A) : {b : A | a = b} := exist _ a eq_refl.

Definition bufSize : nat := 1024.

Lemma bufSize_pos : (0 < bufSize)%nat.
Proof. unfold bufSize. apply Nat.lt_0_succ. Qed.

(** <<
    for {
        n, err := resp.Body.Read(buf)
        if n > 0 { diffBuilder.Write(buf[:n]) }
        if err != nil { break }
    }
    return diffBuilder.String()
    >> *)
Equations read_loop (body : Reader) (diffBuilder : string) : string
  by wf (pending body) lt :=
  read_loop body diffBuilder with inspect (Read body bufSize) => {
    | exist _ (chunk, Some _, _) _ :=
        if (0 <? String.length chunk)%nat then diffBuilder ++ chunk else diffBuilder;
    | exist _ (chunk, None, body') Hread :=
        read_loop body'
          (if (0 <? String.length chunk)%nat then diffBuilder ++ chunk else diffBuilder) }.
Next Obligation.
  eapply Read_pending; [apply bufSize_pos | exact Hread].
Defined.

(** ** The program *)

Definition HandlerFunc : Type := ResponseWriter -> Request -> M ResponseWriter.

(** [loadConfig] (lines 37-48) *)
Definition loadConfig : M (res Config) :=
  err <- godotenv_Load ;;
  match err with
  | Some err => ret (Err (fmt_Errorf ("error loading .env file: " ++ Error err)))
  | None =>
      apiKey <- os_Getenv "API_KEY" ;;
      openAIKey <- os_Getenv "OPENAI_API_KEY" ;;
      githubToken <- os_Getenv "GITHUB_TOKEN" ;;
      port <- os_Getenv "PORT" ;;
      ret (Ok (mkConfig apiKey openAIKey githubToken port))
  end.

(** [validateAPIKey] (lines 50-66) *)
Definition validateAPIKey (next : HandlerFunc) : HandlerFunc :=
  fun w r =>
    let apiKey := Header_Get (Header r) "X-API-Key" in
    cfg <- loadConfig ;;
    match cfg with
    | Err _ => ret (http_Error w "Internal server error" StatusInternalServerError)
    | Ok config =>
        if negb (String.eqb apiKey (APIKey config)) then
          ret (http_Error w "Unauthorized" StatusUnauthorized)
        else
          next w r
    end.

(** [analyzeChanges] (lines 157-193) *)
Definition analyzeChanges (changes modelType : string) : M (res string) :=
  cfg <- loadConfig ;;
  match cfg with
  | Err err => ret (Err err)
  | Ok config =>
      if String.eqb modelType "openai" then
        resp <- client_CreateChatCompletion (OpenAIKey config)
                  (mkChatRequest openai_GPT4
                     [mkMessage openai_ChatMessageRoleUser
                        ("Please analyze the following code changes and provide a detailed review:"
                         ++ LF ++ LF ++ changes)]) ;;
        match resp with
        | Err err => ret (Err err)
        | Ok resp =>
            choice <- slice_index (Choices resp) 0 ;;
            ret (Ok (Content (Message choice)))
        end
      else if String.eqb modelType "claude" then
        ret (Err (fmt_Errorf "Claude integration not implemented yet"))
      else
        ret (Err (fmt_Errorf ("unsupported model type: " ++ modelType)))
  end.

Section Relay.

(** [json.NewDecoder(r.Body).Decode(&req)] on the bytes of the body. *)
Variable json_Decode : string -> res PRAnalysisRequest.

(** The bytes [json.NewEncoder(w).Encode(response)] writes, the final
    newline included. *)
Variable json_Encode : PRAnalysisResponse -> string.

(** The error, if any, of parsing a URL in [http.NewRequest]. *)
Variable url_Parse : string -> option error.

(** [http.NewRequest(method, url, nil)] with a valid method. *)
Definition http_NewRequest (method url : string) : res Request :=
  match url_Parse url with
  | Some err => Err err
  | None => Ok (mkRequest method url [] "")
  end.

Definition req_Header_Set (req : Request) (key value : string) : Request :=
  mkRequest (Method req) (URL req) (Header_Set (Header req) key value) (Body req).

(** [fetchPRChanges] (lines 104-155) *)
Definition fetchPRChanges (owner repo : string) (prNumber : Z) : M (res string) :=
  log_Printf ("Fetching PR changes for " ++ owner ++ "/" ++ repo ++ " #" ++ itoa prNumber) ;;;
  cfg <- loadConfig ;;
  match cfg with
  | Err err =>
      log_Printf ("Config loading failed: " ++ Error err) ;;;
      ret (Err err)
  | Ok config =>
      let url := "https://api.github.com/repos/" ++ owner ++ "/" ++ repo
                 ++ "/pulls/" ++ itoa prNumber in
      match http_NewRequest "GET" url with
      | Err err =>
          log_Printf ("Failed to create request: " ++ Error err) ;;;
          ret (Err err)
      | Ok req =>
          let req := req_Header_Set req "Authorization" ("token " ++ GithubToken config) in
          let req := req_Header_Set req "Accept" "application/vnd.github.v3.diff" in
          resp <- client_Do req ;;
          match resp with
          | Err err =>
              log_Printf ("Failed to make request to github api: " ++ Error err) ;;;
              ret (Err err)
          | Ok resp =>
              defer Body_Close
                (if negb (StatusCode resp =? StatusOK) then
                   match io_ReadAll (RespBody resp) with
                   | Err err => log_Fatal (Error err)
                   | Ok bodyString =>
                       log_Printf ("GitHub API returned status: " ++ itoa (StatusCode resp)
                                   ++ " " ++ bodyString) ;;;
                       ret (Err (fmt_Errorf ("GitHub API returned status: "
                                             ++ itoa (StatusCode resp))))
                   end
                 else
                   log_Printf "PR changes fetched successfully" ;;;
                   ret (Ok (read_loop (RespBody resp) "")))
          end
      end
  end.

(** [analyzePRHandler] (lines 68-102) *)
Definition analyzePRHandler : HandlerFunc :=
  fun w r =>
    if negb (String.eqb (Method r) MethodPost) then
      ret (http_Error w "Method not allowed" StatusMethodNotAllowed)
    else
      match json_Decode (Body r) with
      | Err _ => ret (http_Error w "Invalid request body" StatusBadRequest)
      | Ok req =>
          changes <- fetchPRChanges (Owner req) (Repo req) (PRNumber req) ;;
          match changes with
          | Err err =>
              ret (http_Error w ("Error fetching PR changes: " ++ Error err)
                     StatusInternalServerError)
          | Ok changes =>
              analysis <- analyzeChanges changes (ModelType req) ;;
              match analysis with
              | Err err =>
                  ret (http_Error w ("Error analyzing changes: " ++ Error err)
                         StatusInternalServerError)
              | Ok analysis =>
                  now <- time_Now ;;
                  let response := mkPRAnalysisResponse analysis now (ModelType req) in
                  let w := w_Header_Set w "Content-Type" "application/json" in
                  ret (Write w (json_Encode response))
              end
          end
      end.

(** The handler [main] registers for [/analyze-pr] (line 201). *)
Definition analyze_pr_route : HandlerFunc := validateAPIKey analyzePRHandler.

(** One request served by the route, from a fresh response writer. *)
Definition serve (world : World) (r : Request) : list Event * Outcome ResponseWriter :=
  analyze_pr_route newResponseWriter r world.

End Relay.

(** ** [main] (lines 195-212) *)

(** The routes of [http.DefaultServeMux]: patterns and their handlers. *)
Definition ServeMux : Type := list (string * HandlerFunc).

(** [http.HandleFunc] on a pattern that is not registered yet. *)
Definition http_HandleFunc (mux : ServeMux) (pattern : string) (handler : HandlerFunc)
  : ServeMux :=
  (pattern, handler) :: mux.

Section Main.

Variable json_Decode : string -> res PRAnalysisRequest.
Variable json_Encode : PRAnalysisResponse -> string.
Variable url_Parse : string -> option error.

(** [http.ListenAndServe(addr, nil)]: the error, if any, with which
    serving the routes of the default mux on [addr] ends. *)
Variable http_ListenAndServe : string -> ServeMux -> option error.

(** [main] (lines 195-212) *)
Definition main : M unit :=
  cfg <- loadConfig ;;
  match cfg with
  | Err err => log_Fatal ("Failed to load configuration: " ++ Error err)
  | Ok config =>
      let mux :=
        http_HandleFunc [] "/analyze-pr"
          (validateAPIKey (analyzePRHandler json_Decode json_Encode url_Parse)) in
      let port := Port config in
      let port := if String.eqb port "" then "8080" else port in
      log_Printf ("Server starting on port " ++ port) ;;;
      match http_ListenAndServe (":" ++ port) mux with
      | Some err => log_Fatal ("Server failed to start: " ++ Error err)
      | None => ret tt
      end
  end.

End Main.

(** The address [main] listens on. *)
Definition listen_addr (world : World) : string :=
  if String.eqb (environ world "PORT") "" then ":8080" else ":" ++ environ world "PORT".

Definition is_body_closed (e : Event) : bool :=
  match e with
  | BodyClosed => true
  | _ => false
  end.

(** ** What the transport delivered *)

(** The bytes a reader hands out up to and including the read that
    signals an error: the bytes the transport delivered. *)
Fixpoint delivered (r : Reader) : string :=
  match r with
  | [] => ""
  | (data, None) :: rest => data ++ delivered rest
  | (data, Some _) :: _ => data
  end.

(** A body that arrives in the chunks [chunks], one per read, and whose
    last read returns [last] together with [io.EOF]. *)
Definition chunked (chunks : list string) (last : string) : Reader :=
  (map (fun c => (c, @None error)) chunks ++ [(last, Some EOF)])%list.

(** ** Vocabulary of the properties *)

(** The configuration [loadConfig] returns when the .env file loads. *)
Definition config_of (world : World) : Config :=
  mkConfig (environ world "API_KEY") (environ world "OPENAI_API_KEY")
           (environ world "GITHUB_TOKEN") (environ world "PORT").

(** The request [fetchPRChanges] sends to the hosting API. *)
Definition diff_request (world : World) (owner repo : string) (prNumber : Z) : Request :=
  mkRequest "GET"
    ("https://api.github.com/repos/" ++ owner ++ "/" ++ repo ++ "/pulls/" ++ itoa prNumber)
    [("Accept", ["application/vnd.github.v3.diff"]);
     ("Authorization", ["token " ++ environ world "GITHUB_TOKEN"])]
    "".

(** The request [analyzeChanges] sends to the provider. *)
Definition review_request (changes : string) : ChatCompletionRequest :=
  mkChatRequest "gpt-4"
    [mkMessage "user"
       ("Please analyze the following code changes and provide a detailed review:"
        ++ LF ++ LF ++ changes)].

(** The request carries the configured shared secret and the
    configuration loads. *)
Definition authenticated (world : World) (r : Request) : Prop :=
  dotenv world = None /\ Header_Get (Header r) "X-API-Key" = environ world "API_KEY".

(** [flatten chunks]: the chunks one after the other. *)
Definition flatten (chunks : list string) : string := fold_right append "" chunks.

(** The gate lets a request through: whatever handler it guards, that
    handler serves the request. *)
Definition delegates (world : World) (r : Request) : Prop :=
  forall (next : HandlerFunc) (w : ResponseWriter),
    validateAPIKey next w r world = next w r world.

(** ** Concrete instances *)

(** A small instance of the parameters and of the world, on which the
    definitions above can be run. *)
Module Demo.

Definition dq : string := String "034" "".
Definition quoted (s : string) : string := dq ++ s ++ dq.

(** The body of a request for pull request 7 of octocat/hello. *)
Definition body_of (tag : string) : string :=
  "{" ++ quoted "owner" ++ ":" ++ quoted "octocat" ++ ","
      ++ quoted "repo" ++ ":" ++ quoted "hello" ++ ","
      ++ quoted "pr_number" ++ ":7,"
      ++ quoted "model_type" ++ ":" ++ quoted tag ++ "}".

(** A decoder that knows the bodies [body_of tag] of three tags. *)
Definition json_Decode (body : string) : res PRAnalysisRequest :=
  match find (fun tag => String.eqb body (body_of tag)) ["openai"; "claude"; "gemini"] with
  | Some tag => Ok (mkPRAnalysisRequest "octocat" "hello" 7 tag)
  | None => Err (errorString "invalid character looking for beginning of value")
  end.

Definition json_Encode (resp : PRAnalysisResponse) : string :=
  "{" ++ quoted "analysis" ++ ":" ++ quoted (Analysis resp) ++ ","
      ++ quoted "timestamp" ++ ":" ++ itoa (Timestamp resp) ++ ","
      ++ quoted "model_used" ++ ":" ++ quoted (ModelUsed resp) ++ "}" ++ LF.

Definition url_Parse (url : string) : option error := None.

Definition env_of (secret : string) (name : string) : string :=
  if String.eqb name "API_KEY" then secret
  else if String.eqb name "OPENAI_API_KEY" then "sk-demo"
  else if String.eqb name "GITHUB_TOKEN" then "ghp-demo"
  else "".

Definition world_of (load : option error) (secret : string)
    (hosting : res Response) (provider : res ChatCompletionResponse) : World :=
  mkWorld load (env_of secret) (fun _ => hosting) (fun _ _ => provider) 1700000000.

Definition request_of (method : string) (key : option string) (tag : string) : Request :=
  mkRequest method "/analyze-pr"
    (match key with Some k => [("X-Api-Key", [k])] | None => [] end)
    (body_of tag).

(** A diff in two reads, the second one with the end of the stream. *)
Definition diff_body : Reader := [("diff --git a/x b/x", None); ("+y", Some EOF)].
Definition diff_ok : res Response := Ok (mkResponse 200 diff_body).

(** A 404 whose body arrives. *)
Definition not_found : res Response := Ok (mkResponse 404 [("Not Found", Some EOF)]).

(** A 404 whose body breaks off while it is read. *)
Definition not_found_broken : res Response :=
  Ok (mkResponse 404 [("Not", None); ("", Some (errorString "unexpected EOF"))]).

Definition review : res ChatCompletionResponse :=
  Ok (mkChatResponse [mkChoice (mkMessage "assistant" "LGTM")]).

Definition no_choice : res ChatCompletionResponse := Ok (mkChatResponse []).

(** The route and the fetcher on these parameters. *)
Definition route : World -> Request -> list Event * Outcome ResponseWriter :=
  serve json_Decode json_Encode url_Parse.

Definition fetch : string -> string -> Z -> M (res string) :=
  fetchPRChanges url_Parse.

End Demo.

(** Further worlds and requests: failures of the environment, of the
    hosting API and of the provider. *)
Module Scenario.

Definition good : World := Demo.world_of None "s3cret" Demo.diff_ok Demo.review.

Definition post (tag : string) : Request := Demo.request_of "POST" (Some "s3cret") tag.

(** A POST with the right key whose body is not JSON. *)
Definition bad_body : Request :=
  mkRequest "POST" "/analyze-pr" [("X-Api-Key", ["s3cret"])] "{".

(** No .env file. *)
Definition no_env : World :=
  Demo.world_of (Some (errorString "open .env: no such file or directory"))
    "s3cret" Demo.diff_ok Demo.review.

(** The hosting API cannot be reached. *)
Definition unreachable : World :=
  Demo.world_of None "s3cret" (Err (errorString "dial tcp: connection refused"))
    Demo.review.

(** A URL parser that rejects every URL. *)
Definition no_url (url : string) : option error :=
  Some (errorString "invalid URL escape").

(** A 200 whose body breaks off after its first read. *)
Definition broken_diff : Reader :=
  [("diff --git", None); ("", Some (errorString "unexpected EOF"))].
Definition truncated : World :=
  Demo.world_of None "s3cret" (Ok (mkResponse 200 broken_diff)) Demo.review.

Definition choiceless : World :=
  Demo.world_of None "s3cret" Demo.diff_ok Demo.no_choice.

(** The provider refuses the call. *)
Definition provider_down : World :=
  Demo.world_of None "s3cret" Demo.diff_ok (Err (errorString "status code: 429")).

(** A listener whose port is taken. *)
Definition busy (addr : string) (mux : ServeMux) : option error :=
  Some (errorString "bind: address already in use").

Definition unauthorized : ResponseWriter :=
  http_Error newResponseWriter "Unauthorized" StatusUnauthorized.

Definition reviewed : ResponseWriter :=
  Write (w_Header_Set newResponseWriter "Content-Type" "application/json")
    (Demo.json_Encode (mkPRAnalysisResponse "LGTM" 1700000000 "openai")).

End Scenario.

(** * Properties *)

(** ** Strings *)

Lemma append_nil_r (s : string) : s ++ "" = s.
Proof. induction s as [|c s IH]; simpl; [reflexivity | now rewrite IH]. Qed.

Lemma append_assoc (s1 s2 s3 : string) : (s1 ++ s2) ++ s3 = s1 ++ (s2 ++ s3).
Proof. induction s1 as [|c s1 IH]; simpl; [reflexivity | now rewrite IH]. Qed.

Lemma take_drop (n : nat) (s : string) : take n s ++ drop n s = s.
Proof.
  revert s; induction n as [|n IH]; intros [|c s]; simpl; try reflexivity.
  now rewrite IH.
Qed.

Lemma length_zero (s : string) : String.length s = O -> s = "".
Proof. destruct s; [reflexivity | discriminate]. Qed.

Lemma prefix_append (s t : string) : prefix s (s ++ t) = true.
Proof.
  induction s as [|c s IH]; simpl.
  - now destruct t.
  - destruct (ascii_dec c c) as [_|Hc]; [exact IH | now elim Hc].
Qed.

Lemma Contains_prefix (s sub : string) : prefix sub s = true -> Contains s sub = true.
Proof. intros H; destruct s; cbn [Contains]; rewrite H; reflexivity. Qed.

Lemma Contains_here (s t : string) : Contains (s ++ t) s = true.
Proof. apply Contains_prefix, prefix_append. Qed.

Lemma Contains_skip (p s sub : string) :
  Contains s sub = true -> Contains (p ++ s) sub = true.
Proof.
  intros H; induction p as [|c p IH]; simpl; [exact H|].
  rewrite IH. apply orb_true_r.
Qed.

Lemma Contains_middle (p s t : string) : Contains (p ++ s ++ t) s = true.
Proof. apply Contains_skip, Contains_here. Qed.

(** ** The read loop *)

(** The write guarded by [n > 0] appends the chunk in every case. *)
Lemma guarded_write (acc chunk : string) :
  (if (0 <? String.length chunk)%nat then acc ++ chunk else acc) = acc ++ chunk.
Proof.
  destruct (0 <? String.length chunk)%nat eqn:E; [reflexivity|].
  apply Nat.ltb_ge in E.
  rewrite (length_zero chunk) by lia. now rewrite append_nil_r.
Qed.

Lemma Read_error_delivered (r : Reader) (n : nat) chunk e r' :
  Read r n = (chunk, Some e, r') -> delivered r = chunk.
Proof.
  destruct r as [|[data err] rest]; simpl.
  - intros H; inversion H; reflexivity.
  - destruct (String.length data <=? n)%nat; intros H; inversion H; subst.
    reflexivity.
Qed.

Lemma Read_more_delivered (r : Reader) (n : nat) chunk r' :
  Read r n = (chunk, None, r') -> delivered r = chunk ++ delivered r'.
Proof.
  destruct r as [|[data err] rest]; simpl; [discriminate|].
  destruct (String.length data <=? n)%nat; intros H; inversion H; subst.
  - reflexivity.
  - destruct err; simpl.
    + now rewrite take_drop.
    + now rewrite <- append_assoc, take_drop.
Qed.

(** The loop returns what the builder held followed by what the
    transport delivered, whatever the sizes of the reads. *)
Lemma read_loop_delivered (body : Reader) (diffBuilder : string) :
  read_loop body diffBuilder = diffBuilder ++ delivered body.
Proof.
  funelim (read_loop body diffBuilder).
  - rewrite guarded_write.
    match goal with
    | E : Read _ _ = (_, Some _, _) |- _ => now rewrite (Read_error_delivered _ _ E)
    end.
  - match goal with
    | IH : read_loop _ _ = _ ++ delivered _ |- _ => rewrite IH
    end.
    rewrite guarded_write, append_assoc.
    match goal with
    | E : Read _ _ = (_, None, _) |- _ => now rewrite (Read_more_delivered _ _ E)
    end.
Qed.


(** ** Running the monad *)

Lemma bind_pure {A B} (m : M A) (k : A -> M B) (world : World) (a : A) :
  m world = ([], Done a) -> bind m k world = k a world.
Proof. intros H. unfold bind. rewrite H. now destruct (k a world). Qed.

Lemma loadConfig_run (world : World) :
  loadConfig world =
  ([], Done match dotenv world with
            | Some err => Err (fmt_Errorf ("error loading .env file: " ++ Error err))
            | None => Ok (config_of world)
            end).
Proof.
  unfold loadConfig, bind, godotenv_Load, os_Getenv, ask, ret, config_of.
  now destruct (dotenv world).
Qed.

Lemma validateAPIKey_run (next : HandlerFunc) w r (world : World) :
  validateAPIKey next w r world =
  match dotenv world with
  | Some _ => ([], Done (http_Error w "Internal server error" StatusInternalServerError))
  | None =>
      if String.eqb (Header_Get (Header r) "X-API-Key") (environ world "API_KEY")
      then next w r world
      else ([], Done (http_Error w "Unauthorized" StatusUnauthorized))
  end.
Proof.
  unfold validateAPIKey.
  erewrite bind_pure by apply loadConfig_run.
  destruct (dotenv world); [reflexivity|].
  cbn [APIKey config_of].
  now destruct (String.eqb _ _).
Qed.

Lemma analyzeChanges_run (changes modelType : string) (world : World) :
  analyzeChanges changes modelType world =
  match dotenv world with
  | Some err => ([], Done (Err (fmt_Errorf ("error loading .env file: " ++ Error err))))
  | None =>
      if String.eqb modelType "openai" then
        let call := OpenAICall (environ world "OPENAI_API_KEY") (review_request changes) in
        match openai world (environ world "OPENAI_API_KEY") (review_request changes) with
        | Err err => ([call], Done (Err err))
        | Ok resp =>
            match Choices resp with
            | [] => ([call], Panic "runtime error: index out of range [0] with length 0")
            | choice :: _ => ([call], Done (Ok (Content (Message choice))))
            end
        end
      else if String.eqb modelType "claude" then
        ([], Done (Err (fmt_Errorf "Claude integration not implemented yet")))
      else
        ([], Done (Err (fmt_Errorf ("unsupported model type: " ++ modelType))))
  end.
Proof.
  unfold analyzeChanges.
  erewrite bind_pure by apply loadConfig_run.
  destruct (dotenv world); [reflexivity|].
  destruct (String.eqb modelType "openai"); [|now destruct (String.eqb modelType "claude")].
  unfold client_CreateChatCompletion, slice_index, panic, emit, ask, ret, bind.
  unfold review_request, openai_GPT4, openai_ChatMessageRoleUser.
  cbn [OpenAIKey config_of].
  destruct (openai world _ _) as [resp|err]; [|reflexivity].
  now destruct (Choices resp).
Qed.

Section RelayProperties.

Variable json_Decode : string -> res PRAnalysisRequest.
Variable json_Encode : PRAnalysisResponse -> string.
Variable url_Parse : string -> option error.

Local Abbreviation fetch := (fetchPRChanges url_Parse).
Local Abbreviation handler := (analyzePRHandler json_Decode json_Encode url_Parse).
Local Abbreviation route := (serve json_Decode json_Encode url_Parse).

Lemma built_request (url token : string) :
  req_Header_Set
    (req_Header_Set (mkRequest "GET" url [] "") "Authorization" ("token " ++ token))
    "Accept" "application/vnd.github.v3.diff"
  = mkRequest "GET" url
      [("Accept", ["application/vnd.github.v3.diff"]);
       ("Authorization", ["token " ++ token])] "".
Proof. reflexivity. Qed.

Lemma fetchPRChanges_run (owner repo : string) (prNumber : Z) (world : World) :
  fetch owner repo prNumber world =
  let start :=
    LogLine ("Fetching PR changes for " ++ owner ++ "/" ++ repo ++ " #" ++ itoa prNumber) in
  match dotenv world with
  | Some err =>
      let e := fmt_Errorf ("error loading .env file: " ++ Error err) in
      ([start; LogLine ("Config loading failed: " ++ Error e)], Done (Err e))
  | None =>
      let req := diff_request world owner repo prNumber in
      match url_Parse (URL req) with
      | Some err => ([start; LogLine ("Failed to create request: " ++ Error err)], Done (Err err))
      | None =>
          match github world req with
          | Err err =>
              ([start; GithubCall req;
                LogLine ("Failed to make request to github api: " ++ Error err)],
               Done (Err err))
          | Ok resp =>
              if StatusCode resp =? StatusOK then
                ([start; GithubCall req; LogLine "PR changes fetched successfully"; BodyClosed],
                 Done (Ok (read_loop (RespBody resp) "")))
              else
                match io_ReadAll (RespBody resp) with
                | Err err => ([start; GithubCall req; LogLine (Error err)], Exit 1)
                | Ok body =>
                    ([start; GithubCall req;
                      LogLine ("GitHub API returned status: " ++ itoa (StatusCode resp)
                               ++ " " ++ body);
                      BodyClosed],
                     Done (Err (fmt_Errorf ("GitHub API returned status: "
                                            ++ itoa (StatusCode resp)))))
                end
          end
      end
  end.
Proof.
  unfold fetchPRChanges, http_NewRequest.
  unfold bind at 1. unfold log_Printf at 1. unfold emit at 1.
  erewrite bind_pure by apply loadConfig_run.
  destruct (dotenv world) as [err|]; [reflexivity|].
  cbn [URL diff_request GithubToken config_of].
  destruct (url_Parse _) as [err|]; [reflexivity|].
  rewrite built_request. fold (diff_request world owner repo prNumber).
  unfold client_Do, defer, Body_Close, log_Fatal, log_Printf, emit, ask, ret, bind.
  destruct (github world _) as [resp|err]; [|reflexivity].
  destruct (StatusCode resp =? StatusOK); cbn [negb]; [reflexivity|].
  now destruct (io_ReadAll (RespBody resp)).
Qed.

Lemma analyzePRHandler_run w r (world : World) :
  handler w r world =
  if String.eqb (Method r) MethodPost then
    match json_Decode (Body r) with
    | Err _ => ([], Done (http_Error w "Invalid request body" StatusBadRequest))
    | Ok req =>
        let (t1, fetched) := fetch (Owner req) (Repo req) (PRNumber req) world in
        match fetched with
        | Done (Err err) =>
            (t1, Done (http_Error w ("Error fetching PR changes: " ++ Error err)
                         StatusInternalServerError))
        | Done (Ok changes) =>
            let (t2, analysed) := analyzeChanges changes (ModelType req) world in
            ((t1 ++ t2)%list,
             match analysed with
             | Done (Err err) =>
                 Done (http_Error w ("Error analyzing changes: " ++ Error err)
                         StatusInternalServerError)
             | Done (Ok analysis) =>
                 Done (Write (w_Header_Set w "Content-Type" "application/json")
                         (json_Encode (mkPRAnalysisResponse analysis (clock world)
                                         (ModelType req))))
             | Exit code => Exit code
             | Panic msg => Panic msg
             end)
        | Exit code => (t1, Exit code)
        | Panic msg => (t1, Panic msg)
        end
    end
  else ([], Done (http_Error w "Method not allowed" StatusMethodNotAllowed)).
Proof.
  unfold analyzePRHandler.
  destruct (String.eqb (Method r) MethodPost); cbn [negb]; [|reflexivity].
  destruct (json_Decode (Body r)) as [req|err]; [|reflexivity].
  unfold bind at 1.
  destruct (fetch _ _ _ world) as [t1 [[changes|err]|code|msg]]; try reflexivity.
  - unfold bind at 1.
    destruct (analyzeChanges _ _ world) as [t2 [[analysis|err]|code|msg]];
      unfold time_Now, ask, ret, bind; cbv beta iota; cbn [app];
      rewrite ?app_nil_r; reflexivity.
  - unfold ret; cbv beta iota. now rewrite app_nil_r.
Qed.

Lemma route_run r (world : World) :
  route world r =
  match dotenv world with
  | Some _ =>
      ([], Done (http_Error newResponseWriter "Internal server error"
                   StatusInternalServerError))
  | None =>
      if String.eqb (Header_Get (Header r) "X-API-Key") (environ world "API_KEY")
      then handler newResponseWriter r world
      else ([], Done (http_Error newResponseWriter "Unauthorized" StatusUnauthorized))
  end.
Proof. unfold serve, analyze_pr_route. apply validateAPIKey_run. Qed.

Lemma route_authenticated r (world : World) :
  authenticated world r -> route world r = handler newResponseWriter r world.
Proof.
  intros [Hload Hkey]. rewrite route_run, Hload, Hkey. now rewrite String.eqb_refl.
Qed.

Lemma http_Error_fresh (msg : string) (code : Z) :
  w_Status (http_Error newResponseWriter msg code) = Some code /\
  w_Body (http_Error newResponseWriter msg code) = msg ++ LF.
Proof. split; reflexivity. Qed.

Lemma Header_Get_absent (h : http_Header) (key : string) :
  header_lookup h (CanonicalMIMEHeaderKey key) = None -> Header_Get h key = "".
Proof. unfold Header_Get. now intros ->. Qed.

Lemma delegates_iff (world : World) (r : Request) :
  delegates world r <-> authenticated world r.
Proof.
  unfold delegates, authenticated. split.
  - intros H.
    specialize (H (fun w _ _ => ([BodyClosed], Done w)) newResponseWriter).
    rewrite validateAPIKey_run in H.
    destruct (dotenv world); [discriminate|].
    destruct (String.eqb_spec (Header_Get (Header r) "X-API-Key") (environ world "API_KEY"));
      [now split | discriminate].
  - intros [Hload Hkey] next w.
    rewrite validateAPIKey_run, Hload, Hkey. now rewrite String.eqb_refl.
Qed.

(** ** The authentication gate *)

(** C10. The gate lets a request through exactly when the configuration
    loads and the value of the X-API-Key header equals its [APIKey],
    which is the value of the environment variable API_KEY; so when
    API_KEY is unset (read as the empty string) a request without the
    header (read as the empty string too) is let through and is served
    by the handler behind the gate. *)
Theorem gate_delegates_iff_key_equal (world : World) (r : Request) :
  (delegates world r <->
   exists config,
     outcome (loadConfig world) = Done (Ok config) /\
     Header_Get (Header r) "X-API-Key" = APIKey config) /\
  (forall config,
     outcome (loadConfig world) = Done (Ok config) ->
     APIKey config = environ world "API_KEY") /\
  (forall config,
     outcome (loadConfig world) = Done (Ok config) ->
     environ world "API_KEY" = "" ->
     header_lookup (Header r) "X-Api-Key" = None ->
     delegates world r /\ route world r = handler newResponseWriter r world).
Proof.
  rewrite loadConfig_run. cbn [outcome snd].
  split; [|split].
  - rewrite delegates_iff. unfold authenticated. split.
    + intros [Hload Hkey]. exists (config_of world). rewrite Hload. now split.
    + intros [config [Hcfg Hkey]].
      destruct (dotenv world); [discriminate|].
      injection Hcfg as <-. now split.
  - intros config Hcfg. destruct (dotenv world); [discriminate|].
    now injection Hcfg as <-.
  - intros config Hcfg Hunset Habsent.
    assert (Hauth : authenticated world r).
    { split.
      - now destruct (dotenv world).
      - now rewrite (Header_Get_absent _ "X-API-Key" Habsent), Hunset. }
    split; [now apply delegates_iff | now apply route_authenticated].
Qed.

(** C1 (amended). A request whose X-API-Key value differs from the
    configured shared secret, or that has no X-API-Key header while the
    configured secret is not empty, is answered by the gate alone:
    nothing is logged and no outbound call is made, and the status is
    401 when the configuration loads (500 when it does not). *)
Theorem key_mismatch_rejected_before_network (world : World) (r : Request) :
  Header_Get (Header r) "X-API-Key" <> environ world "API_KEY" \/
  (header_lookup (Header r) "X-Api-Key" = None /\ environ world "API_KEY" <> "") ->
  no_outbound (trace (route world r)) /\
  exists w,
    route world r = ([], Done w) /\
    w_Status w = Some (match dotenv world with
                       | None => StatusUnauthorized
                       | Some _ => StatusInternalServerError
                       end) /\
    (dotenv world = None -> w_Body w = "Unauthorized" ++ LF).
Proof.
  intros Hkey.
  assert (Hneq : String.eqb (Header_Get (Header r) "X-API-Key") (environ world "API_KEY")
                 = false).
  { apply String.eqb_neq. destruct Hkey as [Hkey | [Habsent Hsecret]]; [exact Hkey|].
    rewrite (Header_Get_absent _ "X-API-Key" Habsent). congruence. }
  rewrite route_run, Hneq.
  destruct (dotenv world); (split; [reflexivity|]);
    eexists; (split; [reflexivity|]); split; try reflexivity.
  discriminate.
Qed.

(** C8 (amended). A request that passes the authentication gate and
    whose method is not POST is answered 405, with no outbound call. *)
Theorem non_post_method_not_allowed (world : World) (r : Request) :
  authenticated world r ->
  Method r <> MethodPost ->
  exists w,
    route world r = ([], Done w) /\
    w_Status w = Some StatusMethodNotAllowed /\
    w_Body w = "Method not allowed" ++ LF.
Proof.
  intros Hauth Hmethod. apply String.eqb_neq in Hmethod.
  rewrite (route_authenticated Hauth), analyzePRHandler_run, Hmethod.
  eexists; split; [reflexivity|]. split; reflexivity.
Qed.

(** ** The diff fetcher *)

(** C4. A fetch that succeeds returns exactly the bytes the transport
    delivered for the body of the hosting API's answer; in particular,
    for a body that comes in any number of chunks and whose last read
    returns data together with the end of the stream, it returns the
    chunks and that data one after the other. *)
Theorem fetched_diff_is_delivered_bytes
    (owner repo : string) (prNumber : Z) (world : World) (changes : string) :
  outcome (fetch owner repo prNumber world) = Done (Ok changes) ->
  exists resp,
    In (GithubCall (diff_request world owner repo prNumber))
       (trace (fetch owner repo prNumber world)) /\
    github world (diff_request world owner repo prNumber) = Ok resp /\
    changes = delivered (RespBody resp) /\
    (forall chunks last,
       RespBody resp = chunked chunks last -> changes = flatten chunks ++ last).
Proof.
  rewrite fetchPRChanges_run. cbv zeta.
  destruct (dotenv world); [discriminate|].
  destruct (url_Parse _); [discriminate|].
  destruct (github world _) as [resp|err]; [|discriminate].
  destruct (StatusCode resp =? StatusOK).
  - cbn [outcome trace fst snd]. intros [= <-].
    exists resp. rewrite read_loop_delivered. cbn [append].
    split; [right; left; reflexivity|].
    split; [reflexivity|]. split; [reflexivity|].
    intros chunks last ->. unfold chunked.
    induction chunks as [|c chunks IH]; cbn; [reflexivity|].
    now rewrite IH, append_assoc.
  - destruct (io_ReadAll _); discriminate.
Qed.

(** The diagnostic path of a non-200 answer: when reading the body
    fails the process exits (lines 131-134). *)
Lemma diagnostic_read_failure_exits
    (owner repo : string) (prNumber : Z) (world : World) resp err :
  dotenv world = None ->
  url_Parse (URL (diff_request world owner repo prNumber)) = None ->
  github world (diff_request world owner repo prNumber) = Ok resp ->
  StatusCode resp <> StatusOK ->
  io_ReadAll (RespBody resp) = Err err ->
  outcome (fetch owner repo prNumber world) = Exit 1.
Proof.
  intros Hload Hurl Hresp Hstatus Hread.
  rewrite fetchPRChanges_run, Hload. cbv zeta. rewrite Hurl, Hresp.
  apply Z.eqb_neq in Hstatus. now rewrite Hstatus, Hread.
Qed.

(** The diagnostic path when the body can be read: the fetch error
    carries the status, and the handler answers 500 with it. *)
Lemma upstream_status_reported (world : World) (r : Request) req resp body :
  authenticated world r ->
  Method r = MethodPost ->
  json_Decode (Body r) = Ok req ->
  url_Parse (URL (diff_request world (Owner req) (Repo req) (PRNumber req))) = None ->
  github world (diff_request world (Owner req) (Repo req) (PRNumber req)) = Ok resp ->
  StatusCode resp <> StatusOK ->
  io_ReadAll (RespBody resp) = Ok body ->
  exists w,
    outcome (route world r) = Done w /\
    w_Status w = Some StatusInternalServerError /\
    w_Body w = "Error fetching PR changes: GitHub API returned status: "
               ++ itoa (StatusCode resp) ++ LF /\
    Contains (w_Body w) (itoa (StatusCode resp)) = true.
Proof.
  intros Hauth Hmethod Hdecode Hurl Hresp Hstatus Hread.
  rewrite (route_authenticated Hauth), analyzePRHandler_run, Hmethod, Hdecode.
  rewrite fetchPRChanges_run. destruct Hauth as [Hload _]. rewrite Hload.
  cbv zeta. rewrite Hurl, Hresp.
  apply Z.eqb_neq in Hstatus. rewrite Hstatus, Hread.
  cbn [String.eqb MethodPost Ascii.eqb Bool.eqb outcome snd].
  eexists; split; [reflexivity|].
  split; [reflexivity|]. split; [reflexivity|].
  apply (Contains_middle "Error fetching PR changes: GitHub API returned status: ").
Qed.

(** ** The analysis dispatcher *)

(** An "openai" dispatch whose provider call succeeds with no choice
    panics on [resp.Choices[0]] (line 184). *)
Lemma empty_choices_panic (changes : string) (world : World) resp :
  dotenv world = None ->
  openai world (environ world "OPENAI_API_KEY") (review_request changes) = Ok resp ->
  Choices resp = [] ->
  outcome (analyzeChanges changes "openai" world)
  = Panic "runtime error: index out of range [0] with length 0".
Proof.
  intros Hload Hresp Hnone.
  rewrite analyzeChanges_run, Hload. cbn [String.eqb Ascii.eqb Bool.eqb].
  cbv zeta. now rewrite Hresp, Hnone.
Qed.

(** When the dispatcher fails on every diff with the same error, the
    handler answers 500 with that error once the diff is fetched, and
    500 whenever it answers. *)
Lemma dispatch_error_answers_500 (world : World) (r : Request) req (e : error) :
  authenticated world r ->
  Method r = MethodPost ->
  json_Decode (Body r) = Ok req ->
  (forall changes, analyzeChanges changes (ModelType req) world = ([], Done (Err e))) ->
  (forall changes,
     outcome (fetch (Owner req) (Repo req) (PRNumber req) world) = Done (Ok changes) ->
     exists w,
       outcome (route world r) = Done w /\
       w_Status w = Some StatusInternalServerError /\
       w_Body w = "Error analyzing changes: " ++ Error e ++ LF) /\
  (forall w, outcome (route world r) = Done w ->
             w_Status w = Some StatusInternalServerError).
Proof.
  intros Hauth Hmethod Hdecode Hdispatch.
  rewrite (route_authenticated Hauth), analyzePRHandler_run, Hmethod, Hdecode.
  cbn [String.eqb MethodPost Ascii.eqb Bool.eqb].
  split.
  - intros changes Hfetch.
    destruct (fetch _ _ _ world) as [t1 fetched]. cbn [outcome snd] in Hfetch.
    subst fetched. rewrite Hdispatch. cbn [outcome snd].
    eexists; split; [reflexivity|]. split; reflexivity.
  - intros w.
    destruct (fetch _ _ _ world) as [t1 [[changes|err]|code|msg]];
      try rewrite Hdispatch; cbn [outcome snd]; intros [= <-] || discriminate;
      reflexivity.
Qed.

(** C6. For an authenticated, well-formed request with model_type
    "claude": on every diff the dispatcher returns, without calling the
    provider, an error whose message contains "not implemented"; when
    the diff fetch succeeds the handler answers 500 with that message;
    and whenever the handler answers, it answers 500. *)
Theorem claude_not_implemented (world : World) (r : Request) req :
  authenticated world r ->
  Method r = MethodPost ->
  json_Decode (Body r) = Ok req ->
  ModelType req = "claude" ->
  (forall changes,
     analyzeChanges changes (ModelType req) world
     = ([], Done (Err (errorString "Claude integration not implemented yet")))) /\
  Contains "Claude integration not implemented yet" "not implemented" = true /\
  (forall changes,
     outcome (fetch (Owner req) (Repo req) (PRNumber req) world) = Done (Ok changes) ->
     exists w,
       outcome (route world r) = Done w /\
       w_Status w = Some StatusInternalServerError /\
       w_Body w = "Error analyzing changes: Claude integration not implemented yet" ++ LF /\
       Contains (w_Body w) "not implemented" = true) /\
  (forall w, outcome (route world r) = Done w ->
             w_Status w = Some StatusInternalServerError).
Proof.
  intros Hauth Hmethod Hdecode Htag.
  assert (Hdispatch : forall changes,
             analyzeChanges changes (ModelType req) world
             = ([], Done (Err (errorString "Claude integration not implemented yet")))).
  { intros changes. destruct Hauth as [Hload _].
    now rewrite analyzeChanges_run, Hload, Htag. }
  destruct (dispatch_error_answers_500 Hauth Hmethod Hdecode Hdispatch)
    as [Hfetched Hanswer].
  split; [exact Hdispatch | split; [reflexivity | split; [|exact Hanswer]]].
  intros changes Hfetch.
  destruct (Hfetched changes Hfetch) as [w [Hw [Hstatus Hbody]]].
  exists w. split; [exact Hw|]. split; [exact Hstatus|].
  rewrite Hbody. split; reflexivity.
Qed.

(** C7. For an authenticated, well-formed request whose model_type is
    neither "openai" nor "claude": on every diff the dispatcher
    returns, without calling the provider, the error "unsupported model
    type: " followed by exactly that tag; when the diff fetch succeeds
    the handler answers 500 with that message; and whenever the handler
    answers, it answers 500. *)
Theorem unsupported_model_type_named (world : World) (r : Request) req :
  authenticated world r ->
  Method r = MethodPost ->
  json_Decode (Body r) = Ok req ->
  ModelType req <> "openai" ->
  ModelType req <> "claude" ->
  (forall changes,
     analyzeChanges changes (ModelType req) world
     = ([], Done (Err (errorString ("unsupported model type: " ++ ModelType req))))) /\
  (forall changes,
     outcome (fetch (Owner req) (Repo req) (PRNumber req) world) = Done (Ok changes) ->
     exists w,
       outcome (route world r) = Done w /\
       w_Status w = Some StatusInternalServerError /\
       w_Body w = "Error analyzing changes: unsupported model type: "
                  ++ ModelType req ++ LF) /\
  (forall w, outcome (route world r) = Done w ->
             w_Status w = Some StatusInternalServerError).
Proof.
  intros Hauth Hmethod Hdecode Hopenai Hclaude.
  apply String.eqb_neq in Hopenai, Hclaude.
  assert (Hdispatch : forall changes,
             analyzeChanges changes (ModelType req) world
             = ([], Done (Err (errorString ("unsupported model type: " ++ ModelType req))))).
  { intros changes. destruct Hauth as [Hload _].
    now rewrite analyzeChanges_run, Hload, Hopenai, Hclaude. }
  destruct (dispatch_error_answers_500 Hauth Hmethod Hdecode Hdispatch)
    as [Hfetched Hanswer].
  split; [exact Hdispatch | split; [|exact Hanswer]].
  intros changes Hfetch.
  destruct (Hfetched changes Hfetch) as [w [Hw [Hstatus Hbody]]].
  exists w. split; [exact Hw|]. split; [exact Hstatus|].
  rewrite Hbody. cbn [Error]. now rewrite append_assoc.
Qed.

(** C9. For an authenticated POST with model_type "openai" whose diff
    fetch returns [changes] and whose provider call, made on that diff,
    returns a first completion with text [analysis], the handler
    answers 200 with content type application/json and, as body, the
    JSON encoding of the analysis, the time read when the request is
    handled and the request's model_type. *)
Theorem successful_analysis_response
    (world : World) (r : Request) req (changes analysis : string) resp choice rest :
  authenticated world r ->
  Method r = MethodPost ->
  json_Decode (Body r) = Ok req ->
  ModelType req = "openai" ->
  outcome (fetch (Owner req) (Repo req) (PRNumber req) world) = Done (Ok changes) ->
  openai world (environ world "OPENAI_API_KEY") (review_request changes) = Ok resp ->
  Choices resp = choice :: rest ->
  Content (Message choice) = analysis ->
  exists w,
    outcome (route world r) = Done w /\
    w_Status w = Some StatusOK /\
    Header_Get (w_Header w) "Content-Type" = "application/json" /\
    w_Body w = json_Encode (mkPRAnalysisResponse analysis (clock world) "openai") /\
    In (OpenAICall (environ world "OPENAI_API_KEY") (review_request changes))
       (trace (route world r)).
Proof.
  intros Hauth Hmethod Hdecode Htag Hfetch Hcall Hchoices Hcontent.
  rewrite (route_authenticated Hauth), analyzePRHandler_run, Hmethod, Hdecode.
  cbn [String.eqb MethodPost Ascii.eqb Bool.eqb].
  destruct (fetch _ _ _ world) as [t1 fetched]. cbn [outcome snd] in Hfetch.
  subst fetched. destruct Hauth as [Hload _].
  rewrite analyzeChanges_run, Hload, Htag.
  cbn [String.eqb Ascii.eqb Bool.eqb]. cbv zeta.
  rewrite Hcall, Hchoices, Hcontent. cbn [outcome trace fst snd].
  eexists; split; [reflexivity|].
  repeat split; try reflexivity.
  apply in_or_app; right; left; reflexivity.
Qed.

End RelayProperties.

(** ** The properties on concrete requests *)


(** C1 (counterexample). With API_KEY unset, a POST without the
    X-API-Key header is not answered 401: the hosting API and the
    provider are called and the answer is 200. *)
Lemma missing_key_unset_secret_is_served :
  let world := Demo.world_of None "" Demo.diff_ok Demo.review in
  let r := Demo.request_of "POST" None "openai" in
  header_lookup (Header r) "X-Api-Key" = None /\
  (exists w, outcome (Demo.route world r) = Done w /\
             w_Status w = Some StatusOK /\
             w_Status w <> Some StatusUnauthorized) /\
  existsb is_outbound (trace (Demo.route world r)) = true /\
  ~ no_outbound (trace (Demo.route world r)).
Proof.
  cbv zeta. split; [reflexivity|]. split.
  - eexists. split; [vm_compute; reflexivity|]. split; [reflexivity | discriminate].
  - split; [vm_compute; reflexivity|].
    unfold no_outbound. vm_compute. discriminate.
Qed.

(** C1 (amended) on a request with a wrong key and on a request with
    no key, the configured secret being "s3cret". *)
Lemma key_mismatch_rejected_before_network_witness :
  no_outbound (trace (Demo.route (Demo.world_of None "s3cret" Demo.diff_ok Demo.review)
                                (Demo.request_of "POST" (Some "guess") "openai"))) /\
  no_outbound (trace (Demo.route (Demo.world_of None "s3cret" Demo.diff_ok Demo.review)
                                (Demo.request_of "POST" None "openai"))).
Proof.
  split.
  - apply (@key_mismatch_rejected_before_network
             Demo.json_Decode Demo.json_Encode Demo.url_Parse
             (Demo.world_of None "s3cret" Demo.diff_ok Demo.review)
             (Demo.request_of "POST" (Some "guess") "openai")).
    left. vm_compute. discriminate.
  - apply (@key_mismatch_rejected_before_network
             Demo.json_Decode Demo.json_Encode Demo.url_Parse
             (Demo.world_of None "s3cret" Demo.diff_ok Demo.review)
             (Demo.request_of "POST" None "openai")).
    right. split; [reflexivity | vm_compute; discriminate].
Defined.

(** C2. On a 404 whose body breaks off while it is read for the
    diagnostic, [fetchPRChanges] returns no fetch error: the process
    exits with status 1. *)
Theorem diagnostic_read_failure_exits_process :
  io_ReadAll [("Not", None); ("", Some (errorString "unexpected EOF"))]
  = Err (errorString "unexpected EOF") /\
  Demo.fetch "octocat" "hello" 7
    (Demo.world_of None "s3cret" Demo.not_found_broken Demo.review)
  = ([LogLine "Fetching PR changes for octocat/hello #7";
      GithubCall (diff_request (Demo.world_of None "s3cret" Demo.not_found_broken Demo.review)
                    "octocat" "hello" 7);
      LogLine "unexpected EOF"],
     Exit 1).
Proof. split; vm_compute; reflexivity. Qed.

(** C3. On an "openai" dispatch whose provider call succeeds with an
    empty list of choices, [analyzeChanges] returns no provider error:
    it panics on the index. *)
Theorem empty_choices_index_panics :
  openai (Demo.world_of None "s3cret" Demo.diff_ok Demo.no_choice)
    "sk-demo" (review_request "+y") = Ok (mkChatResponse []) /\
  analyzeChanges "+y" "openai" (Demo.world_of None "s3cret" Demo.diff_ok Demo.no_choice)
  = ([OpenAICall "sk-demo" (review_request "+y")],
     Panic "runtime error: index out of range [0] with length 0").
Proof. split; vm_compute; reflexivity. Qed.

(** C4 on a body in two reads, the second with the end of the stream. *)
Lemma fetched_diff_is_delivered_bytes_witness :
  exists resp,
    In (GithubCall (diff_request (Demo.world_of None "s3cret" Demo.diff_ok Demo.review)
                      "octocat" "hello" 7))
       (trace (Demo.fetch "octocat" "hello" 7
                 (Demo.world_of None "s3cret" Demo.diff_ok Demo.review))) /\
    github (Demo.world_of None "s3cret" Demo.diff_ok Demo.review)
      (diff_request (Demo.world_of None "s3cret" Demo.diff_ok Demo.review)
         "octocat" "hello" 7) = Ok resp /\
    "diff --git a/x b/x+y" = delivered (RespBody resp) /\
    (forall chunks last,
       RespBody resp = chunked chunks last ->
       "diff --git a/x b/x+y" = flatten chunks ++ last).
Proof.
  apply (@fetched_diff_is_delivered_bytes Demo.url_Parse "octocat" "hello" 7
           (Demo.world_of None "s3cret" Demo.diff_ok Demo.review)
           "diff --git a/x b/x+y").
  vm_compute. reflexivity.
Defined.

(** C5. For an authenticated, well-formed POST to which the hosting API
    answers 404 with a body that breaks off while it is read, the
    handler answers nothing, neither 500 nor the status: the process
    exits with status 1. *)
Theorem upstream_error_unreadable_body_no_response :
  let world := Demo.world_of None "s3cret" Demo.not_found_broken Demo.review in
  let r := Demo.request_of "POST" (Some "s3cret") "openai" in
  authenticated world r /\
  Method r = MethodPost /\
  Demo.json_Decode (Body r) = Ok (mkPRAnalysisRequest "octocat" "hello" 7 "openai") /\
  github world (diff_request world "octocat" "hello" 7) = Demo.not_found_broken /\
  outcome (Demo.route world r) = Exit 1.
Proof. cbv zeta. unfold authenticated. repeat split; vm_compute; reflexivity. Qed.

(** C6 on a request for "claude" whose diff fetch succeeds. *)
Lemma claude_not_implemented_witness :
  exists w,
    outcome (Demo.route (Demo.world_of None "s3cret" Demo.diff_ok Demo.review)
               (Demo.request_of "POST" (Some "s3cret") "claude")) = Done w /\
    w_Status w = Some StatusInternalServerError /\
    w_Body w = "Error analyzing changes: Claude integration not implemented yet" ++ LF /\
    Contains (w_Body w) "not implemented" = true.
Proof.
  refine (proj1 (proj2 (proj2 (@claude_not_implemented
                          Demo.json_Decode Demo.json_Encode Demo.url_Parse
                          (Demo.world_of None "s3cret" Demo.diff_ok Demo.review)
                          (Demo.request_of "POST" (Some "s3cret") "claude")
                          (mkPRAnalysisRequest "octocat" "hello" 7 "claude")
                          _ _ _ _)))
                "diff --git a/x b/x+y" _).
  - split; vm_compute; reflexivity.
  - reflexivity.
  - vm_compute. reflexivity.
  - reflexivity.
  - vm_compute. reflexivity.
Defined.

(** C7 on a request for "gemini" whose diff fetch succeeds. *)
Lemma unsupported_model_type_named_witness :
  exists w,
    outcome (Demo.route (Demo.world_of None "s3cret" Demo.diff_ok Demo.review)
               (Demo.request_of "POST" (Some "s3cret") "gemini")) = Done w /\
    w_Status w = Some StatusInternalServerError /\
    w_Body w = "Error analyzing changes: unsupported model type: " ++ "gemini" ++ LF.
Proof.
  refine (proj1 (proj2 (@unsupported_model_type_named
                          Demo.json_Decode Demo.json_Encode Demo.url_Parse
                          (Demo.world_of None "s3cret" Demo.diff_ok Demo.review)
                          (Demo.request_of "POST" (Some "s3cret") "gemini")
                          (mkPRAnalysisRequest "octocat" "hello" 7 "gemini")
                          _ _ _ _ _))
                "diff --git a/x b/x+y" _).
  - split; vm_compute; reflexivity.
  - reflexivity.
  - vm_compute. reflexivity.
  - discriminate.
  - discriminate.
  - vm_compute. reflexivity.
Defined.

(** C8 (counterexample). A GET without the shared secret is answered
    401 by the gate, not 405. *)
Lemma unauthenticated_get_is_401 :
  let world := Demo.world_of None "s3cret" Demo.diff_ok Demo.review in
  let r := Demo.request_of "GET" None "openai" in
  Method r <> MethodPost /\
  exists w, outcome (Demo.route world r) = Done w /\
            w_Status w = Some StatusUnauthorized /\
            w_Status w <> Some StatusMethodNotAllowed.
Proof.
  cbv zeta. split; [discriminate|].
  eexists. split; [vm_compute; reflexivity|]. split; [reflexivity | discriminate].
Qed.

(** C8 (amended) on a GET with the right key. *)
Lemma non_post_method_not_allowed_witness :
  exists w,
    Demo.route (Demo.world_of None "s3cret" Demo.diff_ok Demo.review)
              (Demo.request_of "GET" (Some "s3cret") "openai") = ([], Done w) /\
    w_Status w = Some StatusMethodNotAllowed /\
    w_Body w = "Method not allowed" ++ LF.
Proof.
  apply (@non_post_method_not_allowed Demo.json_Decode Demo.json_Encode Demo.url_Parse
           (Demo.world_of None "s3cret" Demo.diff_ok Demo.review)
           (Demo.request_of "GET" (Some "s3cret") "openai")).
  - split; vm_compute; reflexivity.
  - discriminate.
Defined.

(** C9 on a diff in two reads and the review "LGTM". *)
Lemma successful_analysis_response_witness :
  exists w,
    outcome (Demo.route (Demo.world_of None "s3cret" Demo.diff_ok Demo.review)
               (Demo.request_of "POST" (Some "s3cret") "openai")) = Done w /\
    w_Status w = Some StatusOK /\
    Header_Get (w_Header w) "Content-Type" = "application/json" /\
    w_Body w = Demo.json_Encode (mkPRAnalysisResponse "LGTM" 1700000000 "openai") /\
    In (OpenAICall "sk-demo" (review_request "diff --git a/x b/x+y"))
       (trace (Demo.route (Demo.world_of None "s3cret" Demo.diff_ok Demo.review)
                 (Demo.request_of "POST" (Some "s3cret") "openai"))).
Proof.
  apply (@successful_analysis_response Demo.json_Decode Demo.json_Encode Demo.url_Parse
           (Demo.world_of None "s3cret" Demo.diff_ok Demo.review)
           (Demo.request_of "POST" (Some "s3cret") "openai")
           (mkPRAnalysisRequest "octocat" "hello" 7 "openai")
           "diff --git a/x b/x+y" "LGTM"
           (mkChatResponse [mkChoice (mkMessage "assistant" "LGTM")])
           (mkChoice (mkMessage "assistant" "LGTM")) []).
  - split; vm_compute; reflexivity.
  - reflexivity.
  - vm_compute. reflexivity.
  - reflexivity.
  - vm_compute. reflexivity.
  - reflexivity.
  - reflexivity.
  - reflexivity.
Defined.

(** C10 with API_KEY unset and no X-API-Key header. *)
Lemma gate_delegates_iff_key_equal_witness :
  delegates (Demo.world_of None "" Demo.diff_ok Demo.review)
            (Demo.request_of "POST" None "openai") /\
  Demo.route (Demo.world_of None "" Demo.diff_ok Demo.review)
            (Demo.request_of "POST" None "openai")
  = analyzePRHandler Demo.json_Decode Demo.json_Encode Demo.url_Parse newResponseWriter
      (Demo.request_of "POST" None "openai")
      (Demo.world_of None "" Demo.diff_ok Demo.review).
Proof.
  apply (proj2 (proj2 (@gate_delegates_iff_key_equal
                         Demo.json_Decode Demo.json_Encode Demo.url_Parse
                         (Demo.world_of None "" Demo.diff_ok Demo.review)
                         (Demo.request_of "POST" None "openai")))
               (config_of (Demo.world_of None "" Demo.diff_ok Demo.review)));
    reflexivity.
Defined.

(** * Further properties of the relay *)

(** One step of running the route: unfold the next function of the
    pipeline, reuse an answer of the world that is already known, or
    split on the next answer. *)
Ltac route_step :=
  first
    [ rewrite route_run
    | rewrite analyzePRHandler_run
    | rewrite fetchPRChanges_run
    | rewrite analyzeChanges_run
    | progress cbv beta iota zeta
    | match goal with
      | H : ?x = _ |- context [match ?x with _ => _ end] => rewrite H
      end
    | match goal with
      | |- context [match ?x with _ => _ end] =>
          lazymatch x with
          | context [match _ with _ => _ end] => fail
          | _ => destruct x eqn:?
          end
      end ].

Ltac route_cases := repeat route_step.

Section RelayExtras.

Variable json_Decode : string -> res PRAnalysisRequest.
Variable json_Encode : PRAnalysisResponse -> string.
Variable url_Parse : string -> option error.

Local Abbreviation fetch := (fetchPRChanges url_Parse).
Local Abbreviation handler := (analyzePRHandler json_Decode json_Encode url_Parse).
Local Abbreviation route := (serve json_Decode json_Encode url_Parse).

(** ** Request handling *)

(** X1. An authenticated POST whose body does not decode is answered
    400 "Invalid request body", before anything is logged or called. *)
Theorem malformed_body_bad_request (world : World) (r : Request) (e : error) :
  authenticated world r ->
  Method r = MethodPost ->
  json_Decode (Body r) = Err e ->
  exists w,
    route world r = ([], Done w) /\
    w_Status w = Some StatusBadRequest /\
    w_Body w = "Invalid request body" ++ LF.
Proof.
  intros Hauth Hmethod Hdecode.
  rewrite (route_authenticated _ _ _ Hauth), analyzePRHandler_run, Hmethod, Hdecode.
  eexists. repeat split.
Qed.

(** X2. When the configuration does not load, every request, whatever
    its key, method and body, is answered 500 "Internal server error"
    by the gate, with nothing logged and nothing called. *)
Theorem config_failure_internal_error (world : World) (r : Request) (e : error) :
  dotenv world = Some e ->
  exists w,
    route world r = ([], Done w) /\
    w_Status w = Some StatusInternalServerError /\
    w_Body w = "Internal server error" ++ LF.
Proof.
  intros Hload. rewrite route_run, Hload. eexists. repeat split.
Qed.

(** X3. Every response the route sends is either a 200 with content
    type application/json, or a 400, 401, 405 or 500 with content type
    text/plain, the nosniff option and a one-line body. *)
Theorem response_shapes (world : World) (r : Request) (w : ResponseWriter) :
  outcome (route world r) = Done w ->
  (w_Status w = Some StatusOK /\
   Header_Get (w_Header w) "Content-Type" = "application/json") \/
  (In (w_Status w) [Some StatusBadRequest; Some StatusUnauthorized;
                    Some StatusMethodNotAllowed; Some StatusInternalServerError] /\
   Header_Get (w_Header w) "Content-Type" = "text/plain; charset=utf-8" /\
   Header_Get (w_Header w) "X-Content-Type-Options" = "nosniff" /\
   exists msg, w_Body w = msg ++ LF).
Proof.
  route_cases; cbn [outcome snd]; intros [= <-] || discriminate;
    solve [ left; split; reflexivity
          | right; split; [cbn; tauto |];
            split; [reflexivity|]; split; [reflexivity|]; eexists; reflexivity ].
Qed.

(** ** The diff fetcher *)

(** X4. The fetch returns a diff exactly when the configuration loads,
    the URL parses and the hosting API answers with status 200: every
    other status, the other 2xx included, is a failure. *)
Theorem fetch_succeeds_iff_status_200
    (owner repo : string) (prNumber : Z) (world : World) :
  (exists changes, outcome (fetch owner repo prNumber world) = Done (Ok changes)) <->
  (dotenv world = None /\
   url_Parse (URL (diff_request world owner repo prNumber)) = None /\
   exists resp,
     github world (diff_request world owner repo prNumber) = Ok resp /\
     StatusCode resp = StatusOK).
Proof.
  split.
  - intros [changes H]. revert H. route_cases; cbn [outcome snd]; try discriminate.
    intros _. split; [reflexivity|]. split; [reflexivity|].
    eexists. split; [reflexivity|]. now apply Z.eqb_eq.
  - intros [Hload [Hurl [resp [Hresp Hstatus]]]].
    apply Z.eqb_eq in Hstatus. route_cases. eexists. reflexivity.
Qed.

(** X5. When the call to the hosting API fails in the transport, the
    handler answers 500 with that error after "Error fetching PR
    changes: ", no body is closed and the provider is not called. *)
Theorem transport_error_surfaces (world : World) (r : Request) req (e : error) :
  authenticated world r ->
  Method r = MethodPost ->
  json_Decode (Body r) = Ok req ->
  url_Parse (URL (diff_request world (Owner req) (Repo req) (PRNumber req))) = None ->
  github world (diff_request world (Owner req) (Repo req) (PRNumber req)) = Err e ->
  exists w,
    outcome (route world r) = Done w /\
    w_Status w = Some StatusInternalServerError /\
    w_Body w = "Error fetching PR changes: " ++ Error e ++ LF /\
    filter is_outbound (trace (route world r))
    = [GithubCall (diff_request world (Owner req) (Repo req) (PRNumber req))] /\
    filter is_body_closed (trace (route world r)) = [].
Proof.
  intros [Hload Hkey] Hmethod Hdecode Hurl Hresp.
  apply String.eqb_eq in Hkey, Hmethod.
  route_cases. eexists. repeat split.
Qed.

(** X6. When the URL built from owner, repo and number does not parse,
    no call leaves the process and the handler answers 500 with the
    parse error after "Error fetching PR changes: ". *)
Theorem invalid_url_no_call (world : World) (r : Request) req (e : error) :
  authenticated world r ->
  Method r = MethodPost ->
  json_Decode (Body r) = Ok req ->
  url_Parse (URL (diff_request world (Owner req) (Repo req) (PRNumber req))) = Some e ->
  no_outbound (trace (route world r)) /\
  exists w,
    outcome (route world r) = Done w /\
    w_Status w = Some StatusInternalServerError /\
    w_Body w = "Error fetching PR changes: " ++ Error e ++ LF.
Proof.
  intros [Hload Hkey] Hmethod Hdecode Hurl.
  apply String.eqb_eq in Hkey, Hmethod.
  unfold no_outbound. route_cases. split; [reflexivity|]. eexists. repeat split.
Qed.

(** X7. On a 200 the fetch always returns a diff, whatever the reads of
    the body return: the loop ends at the first read error and drops
    it, so a body that breaks off is returned as far as it was
    delivered, with no error returned and none logged. *)
Theorem body_read_error_swallowed
    (owner repo : string) (prNumber : Z) (world : World) resp :
  dotenv world = None ->
  url_Parse (URL (diff_request world owner repo prNumber)) = None ->
  github world (diff_request world owner repo prNumber) = Ok resp ->
  StatusCode resp = StatusOK ->
  fetch owner repo prNumber world
  = ([LogLine ("Fetching PR changes for " ++ owner ++ "/" ++ repo ++ " #" ++ itoa prNumber);
      GithubCall (diff_request world owner repo prNumber);
      LogLine "PR changes fetched successfully";
      BodyClosed],
     Done (Ok (delivered (RespBody resp)))).
Proof.
  intros Hload Hurl Hresp Hstatus.
  apply Z.eqb_eq in Hstatus. route_cases.
  now rewrite read_loop_delivered.
Qed.

(** X8. On every return of the fetch, the body of a response that was
    received has been closed exactly once, and nothing is closed when
    no response was received. *)
Theorem body_closed_once_on_return
    (owner repo : string) (prNumber : Z) (world : World) (result : res string) :
  outcome (fetch owner repo prNumber world) = Done result ->
  filter is_body_closed (trace (fetch owner repo prNumber world))
  = if existsb is_outbound (trace (fetch owner repo prNumber world))
    then match github world (diff_request world owner repo prNumber) with
         | Ok _ => [BodyClosed]
         | Err _ => []
         end
    else [].
Proof.
  route_cases; cbn [outcome trace fst snd existsb is_outbound orb] in *;
    try discriminate; intros _; reflexivity.
Qed.

(** ** The pipeline *)

(** X9. A request makes at most one call to the hosting API and at most
    one to the provider, the provider only after the hosting API: no
    call is repeated. *)
Theorem outbound_calls_at_most_one_each (world : World) (r : Request) :
  filter is_outbound (trace (route world r)) = [] \/
  (exists g, filter is_outbound (trace (route world r)) = [GithubCall g]) \/
  (exists g key q,
     filter is_outbound (trace (route world r)) = [GithubCall g; OpenAICall key q]).
Proof.
  route_cases;
    solve [ left; reflexivity
          | right; left; eexists; reflexivity
          | right; right; do 3 eexists; reflexivity ].
Qed.

(** X10. Every call to the hosting API is the GET of the pull request
    named in the body of an authenticated request, with the configured
    token and the diff media type; the caller's X-API-Key is not
    forwarded. *)
Theorem hosting_call_shape (world : World) (r : Request) (g : Request) :
  In (GithubCall g) (trace (route world r)) ->
  authenticated world r /\
  exists req,
    json_Decode (Body r) = Ok req /\
    g = diff_request world (Owner req) (Repo req) (PRNumber req) /\
    Method g = "GET" /\
    URL g = "https://api.github.com/repos/" ++ Owner req ++ "/" ++ Repo req
            ++ "/pulls/" ++ itoa (PRNumber req) /\
    Header_Get (Header g) "Authorization" = "token " ++ environ world "GITHUB_TOKEN" /\
    Header_Get (Header g) "Accept" = "application/vnd.github.v3.diff" /\
    Header_Get (Header g) "X-API-Key" = "".
Proof.
  route_cases; cbn [trace fst In app];
    intros H; repeat (destruct H as [H|H]; try discriminate H); try contradiction;
    injection H as <-;
    (split; [split; [assumption | now apply String.eqb_eq] |]);
    eexists; (split; [reflexivity|]); repeat split.
Qed.

(** X11. The provider is called only for an authenticated POST with
    model_type "openai" whose diff was fetched with status 200, with
    the configured key, the model gpt-4 and one user message: the
    instruction followed by the bytes of the diff as delivered. *)
Theorem provider_call_shape
    (world : World) (r : Request) (key : string) (q : ChatCompletionRequest) :
  In (OpenAICall key q) (trace (route world r)) ->
  authenticated world r /\
  Method r = MethodPost /\
  exists req resp,
    json_Decode (Body r) = Ok req /\
    ModelType req = "openai" /\
    github world (diff_request world (Owner req) (Repo req) (PRNumber req)) = Ok resp /\
    StatusCode resp = StatusOK /\
    key = environ world "OPENAI_API_KEY" /\
    q = mkChatRequest "gpt-4"
          [mkMessage "user"
             ("Please analyze the following code changes and provide a detailed review:"
              ++ LF ++ LF ++ delivered (RespBody resp))].
Proof.
  route_cases; cbn [trace fst In app];
    intros H; repeat (destruct H as [H|H]; try discriminate H); try contradiction;
    injection H as <- <-;
    (split; [split; [assumption | now apply String.eqb_eq] |]);
    (split; [now apply String.eqb_eq |]);
    do 2 eexists; (split; [reflexivity|]);
    (split; [now apply String.eqb_eq |]);
    (split; [eassumption|]); (split; [now apply Z.eqb_eq |]);
    (split; [reflexivity|]);
    unfold review_request; now rewrite read_loop_delivered.
Qed.

(** X12. When the provider call fails, the handler answers 500 with
    the provider's error after "Error analyzing changes: ". *)
Theorem provider_error_surfaces
    (world : World) (r : Request) req (changes : string) (e : error) :
  authenticated world r ->
  Method r = MethodPost ->
  json_Decode (Body r) = Ok req ->
  ModelType req = "openai" ->
  outcome (fetch (Owner req) (Repo req) (PRNumber req) world) = Done (Ok changes) ->
  openai world (environ world "OPENAI_API_KEY") (review_request changes) = Err e ->
  exists w,
    outcome (route world r) = Done w /\
    w_Status w = Some StatusInternalServerError /\
    w_Body w = "Error analyzing changes: " ++ Error e ++ LF.
Proof.
  intros Hauth Hmethod Hdecode Htag Hfetch Hcall.
  rewrite (route_authenticated _ _ _ Hauth), analyzePRHandler_run, Hmethod, Hdecode.
  cbn [String.eqb MethodPost Ascii.eqb Bool.eqb].
  destruct (fetch _ _ _ world) as [t1 fetched]. cbn [outcome snd] in Hfetch.
  subst fetched. destruct Hauth as [Hload _].
  rewrite analyzeChanges_run, Hload, Htag.
  cbn [String.eqb Ascii.eqb Bool.eqb]. cbv zeta. rewrite Hcall.
  eexists. repeat split.
Qed.


(** X14. The handler panics only with the index error of line 184 and
    only in one situation: an authenticated POST with model_type
    "openai" whose diff was fetched and whose provider call succeeded
    with no choice. *)
Theorem panic_only_on_empty_choices (world : World) (r : Request) (msg : string) :
  outcome (route world r) = Panic msg ->
  msg = "runtime error: index out of range [0] with length 0" /\
  authenticated world r /\
  Method r = MethodPost /\
  exists req changes cresp,
    json_Decode (Body r) = Ok req /\
    ModelType req = "openai" /\
    outcome (fetch (Owner req) (Repo req) (PRNumber req) world) = Done (Ok changes) /\
    openai world (environ world "OPENAI_API_KEY") (review_request changes) = Ok cresp /\
    Choices cresp = [].
Proof.
  route_cases; cbn [outcome trace fst snd]; intros [= <-] || discriminate.
  split; [reflexivity|].
  split; [split; [assumption | now apply String.eqb_eq] |].
  split; [now apply String.eqb_eq |].
  do 3 eexists. split; [reflexivity|]. split; [now apply String.eqb_eq |].
  split; [route_cases; reflexivity |]. split; eassumption.
Qed.

(** X15. The fetcher and the dispatcher each load the configuration
    again; when it does not load they return that error and make no
    outbound call, whatever their arguments. *)
Theorem no_config_no_call (world : World) (e : error) :
  dotenv world = Some e ->
  (forall owner repo prNumber,
     no_outbound (trace (fetch owner repo prNumber world)) /\
     outcome (fetch owner repo prNumber world)
     = Done (Err (errorString ("error loading .env file: " ++ Error e)))) /\
  (forall changes modelType,
     analyzeChanges changes modelType world
     = ([], Done (Err (errorString ("error loading .env file: " ++ Error e))))).
Proof.
  intros Hload. split.
  - intros owner repo prNumber. unfold no_outbound. route_cases. split; reflexivity.
  - intros changes modelType. route_cases. reflexivity.
Qed.

(** The status of a response of the route, as a number. *)
Local Ltac status_in H :=
  first [ rewrite (proj1 (http_Error_fresh _ _)) in H
        | cbn [w_Status Write WriteHeader w_Header_Set newResponseWriter] in H ].

(** X16. A 200 is sent only for an authenticated POST with model_type
    "openai" whose diff came with status 200 and whose provider call,
    made on the delivered diff, returned at least one choice; its body
    is then the encoding of the first choice's text, the clock and
    "openai". *)
Theorem ok_only_when_analysed (world : World) (r : Request) (w : ResponseWriter) :
  outcome (route world r) = Done w ->
  w_Status w = Some StatusOK ->
  authenticated world r /\
  Method r = MethodPost /\
  exists req resp cresp choice rest,
    json_Decode (Body r) = Ok req /\
    ModelType req = "openai" /\
    github world (diff_request world (Owner req) (Repo req) (PRNumber req)) = Ok resp /\
    StatusCode resp = StatusOK /\
    openai world (environ world "OPENAI_API_KEY")
      (review_request (delivered (RespBody resp))) = Ok cresp /\
    Choices cresp = choice :: rest /\
    w_Body w = json_Encode (mkPRAnalysisResponse (Content (Message choice))
                              (clock world) "openai").
Proof.
  route_cases; cbn [outcome snd]; intros [= <-] || discriminate;
    intros Hstatus; status_in Hstatus; try discriminate Hstatus.
  split; [split; [assumption | now apply String.eqb_eq] |].
  split; [now apply String.eqb_eq |].
  match goal with
  | H : (ModelType _ =? "openai")%string = true |- _ => apply String.eqb_eq in H
  end.
  do 5 eexists. split; [reflexivity|]. split; [eassumption|].
  split; [eassumption|]. split; [now apply Z.eqb_eq |].
  match goal with
  | H : openai _ _ _ = Ok _ |- _ => rewrite read_loop_delivered in H; cbn [append] in H
  end.
  split; [eassumption|]. split; [eassumption|].
  cbn [w_Body Write WriteHeader w_Header_Set newResponseWriter append].
  now match goal with H : ModelType _ = "openai" |- _ => rewrite H end.
Qed.

(** X17. The reasons of the rejections: a 401 is sent only when the
    configuration loaded and the key differs; a 405 only to an
    authenticated request whose method is not POST; a 400 only to an
    authenticated POST whose body does not decode. *)
Theorem rejection_reasons (world : World) (r : Request) (w : ResponseWriter) :
  outcome (route world r) = Done w ->
  (w_Status w = Some StatusUnauthorized ->
   dotenv world = None /\
   Header_Get (Header r) "X-API-Key" <> environ world "API_KEY") /\
  (w_Status w = Some StatusMethodNotAllowed ->
   authenticated world r /\ Method r <> MethodPost) /\
  (w_Status w = Some StatusBadRequest ->
   authenticated world r /\ Method r = MethodPost /\
   exists e, json_Decode (Body r) = Err e).
Proof.
  route_cases; cbn [outcome snd]; intros [= <-] || discriminate;
    (split; [|split]); intros Hstatus; status_in Hstatus; try discriminate Hstatus;
    repeat match goal with
      | H : (_ =? _)%string = true |- _ => apply String.eqb_eq in H
      | H : (_ =? _)%string = false |- _ => apply String.eqb_neq in H
      end;
    unfold authenticated; eauto 10.
Qed.

(** X23. The answer to a request depends on the request only through
    the value of its X-API-Key header, its method and its body: the
    path, the query and the other headers are not looked at. *)
Theorem request_relevant_parts (world : World) (r r' : Request) :
  Header_Get (Header r) "X-API-Key" = Header_Get (Header r') "X-API-Key" ->
  Method r = Method r' ->
  Body r = Body r' ->
  route world r = route world r'.
Proof.
  intros Hkey Hmethod Hbody.
  rewrite !route_run, !analyzePRHandler_run, Hkey, Hmethod, Hbody. reflexivity.
Qed.

End RelayExtras.

(** ** The gate, the read loop and [main] *)

(** X18. Guarding a handler twice is guarding it once. *)
Theorem gate_idempotent (next : HandlerFunc) (w : ResponseWriter) (r : Request)
    (world : World) :
  validateAPIKey (validateAPIKey next) w r world = validateAPIKey next w r world.
Proof.
  rewrite (validateAPIKey_run (validateAPIKey next)), (validateAPIKey_run next).
  destruct (dotenv world); [reflexivity|].
  destruct (String.eqb _ _); reflexivity.
Qed.

Lemma io_ReadAll_delivered (r : Reader) (s : string) :
  io_ReadAll r = Ok s -> delivered r = s.
Proof.
  revert s. induction r as [|[data [e|]] rest IH]; cbn; intros s.
  - now intros [= <-].
  - destruct e; [now intros [= <-] | discriminate].
  - destruct (io_ReadAll rest) as [more|e]; [|discriminate].
    intros [= <-]. now rewrite (IH more).
Qed.

(** X19. The two ways the fetcher reads a body agree: when
    [io.ReadAll] succeeds on a body, the read loop of the success path
    returns the same bytes. *)
Theorem read_loop_agrees_with_ReadAll (body : Reader) (s : string) :
  io_ReadAll body = Ok s -> read_loop body "" = s.
Proof.
  intros H. rewrite read_loop_delivered. cbn [append].
  now apply io_ReadAll_delivered.
Qed.

(** X20. The result of the read loop does not depend on how the
    transport cuts the bytes into reads: a run of bytes handed out in
    one piece or in two gives the same string, with or without an
    error on the last piece. *)
Theorem read_loop_rechunk (a b : string) (e : option error) (rest : Reader)
    (diffBuilder : string) :
  read_loop ((a ++ b, e) :: rest) diffBuilder
  = read_loop ((a, None) :: (b, e) :: rest) diffBuilder.
Proof.
  rewrite !read_loop_delivered. f_equal.
  destruct e; cbn [delivered]; [reflexivity | now rewrite append_assoc].
Qed.

Section MainProperties.

Variable json_Decode : string -> res PRAnalysisRequest.
Variable json_Encode : PRAnalysisResponse -> string.
Variable url_Parse : string -> option error.

Local Abbreviation routes :=
  [("/analyze-pr",
    validateAPIKey (analyzePRHandler json_Decode json_Encode url_Parse))].
Local Abbreviation main_with := (main json_Decode json_Encode url_Parse).


(** X22. [main] returns only when the configuration loads and the
    listener ends without an error; in every other case it ends the
    process with status 1, and when the configuration does not load it
    does so without listening, having logged that failure only. *)
Theorem main_exits_on_failure
    (listen : string -> ServeMux -> option error) (world : World) :
  (outcome (main_with listen world) = Done tt <->
   dotenv world = None /\ listen (listen_addr world) routes = None) /\
  (outcome (main_with listen world) <> Done tt ->
   outcome (main_with listen world) = Exit 1) /\
  (forall e,
     dotenv world = Some e ->
     main_with listen world
     = ([LogLine ("Failed to load configuration: error loading .env file: " ++ Error e)],
        Exit 1)).
Proof.
  unfold listen_addr, main, http_HandleFunc.
  erewrite !bind_pure by apply loadConfig_run.
  destruct (dotenv world) as [e0|].
  - cbn. split; [split; [discriminate | intros [H _]; discriminate] |].
    split; [reflexivity|]. now intros e [= <-].
  - cbn [Port config_of].
    destruct (String.eqb (environ world "PORT") ""); cbn [append];
      unfold bind, log_Printf, emit, log_Fatal, ret;
      destruct (listen _ _); cbn [outcome snd];
      (split; [split; [discriminate || (intros _; now split)
                      | (intros [_ H]; discriminate H) || reflexivity] |]);
      (split; [reflexivity || (intros H; now elim H) | discriminate]).
Qed.

End MainProperties.

(** ** The further properties on concrete requests *)

Lemma malformed_body_bad_request_witness :
  exists w,
    Demo.route Scenario.good Scenario.bad_body = ([], Done w) /\
    w_Status w = Some StatusBadRequest /\
    w_Body w = "Invalid request body" ++ LF.
Proof.
  apply (@malformed_body_bad_request Demo.json_Decode Demo.json_Encode Demo.url_Parse
           Scenario.good Scenario.bad_body
           (errorString "invalid character looking for beginning of value")).
  - split; vm_compute; reflexivity.
  - reflexivity.
  - vm_compute. reflexivity.
Defined.

Lemma config_failure_internal_error_witness :
  exists w,
    Demo.route Scenario.no_env (Scenario.post "openai") = ([], Done w) /\
    w_Status w = Some StatusInternalServerError /\
    w_Body w = "Internal server error" ++ LF.
Proof.
  apply (@config_failure_internal_error Demo.json_Decode Demo.json_Encode Demo.url_Parse
           Scenario.no_env (Scenario.post "openai")
           (errorString "open .env: no such file or directory")).
  reflexivity.
Defined.

Lemma response_shapes_witness :
  (w_Status Scenario.unauthorized = Some StatusOK /\
   Header_Get (w_Header Scenario.unauthorized) "Content-Type" = "application/json") \/
  (In (w_Status Scenario.unauthorized)
      [Some StatusBadRequest; Some StatusUnauthorized;
       Some StatusMethodNotAllowed; Some StatusInternalServerError] /\
   Header_Get (w_Header Scenario.unauthorized) "Content-Type" = "text/plain; charset=utf-8" /\
   Header_Get (w_Header Scenario.unauthorized) "X-Content-Type-Options" = "nosniff" /\
   exists msg, w_Body Scenario.unauthorized = msg ++ LF).
Proof.
  apply (@response_shapes Demo.json_Decode Demo.json_Encode Demo.url_Parse
           Scenario.good (Demo.request_of "GET" None "openai") Scenario.unauthorized).
  vm_compute. reflexivity.
Defined.

Lemma transport_error_surfaces_witness :
  exists w,
    outcome (Demo.route Scenario.unreachable (Scenario.post "openai")) = Done w /\
    w_Status w = Some StatusInternalServerError /\
    w_Body w = "Error fetching PR changes: " ++ "dial tcp: connection refused" ++ LF /\
    filter is_outbound (trace (Demo.route Scenario.unreachable (Scenario.post "openai")))
    = [GithubCall (diff_request Scenario.unreachable "octocat" "hello" 7)] /\
    filter is_body_closed (trace (Demo.route Scenario.unreachable (Scenario.post "openai")))
    = [].
Proof.
  apply (@transport_error_surfaces Demo.json_Decode Demo.json_Encode Demo.url_Parse
           Scenario.unreachable (Scenario.post "openai")
           (mkPRAnalysisRequest "octocat" "hello" 7 "openai")
           (errorString "dial tcp: connection refused")).
  - split; vm_compute; reflexivity.
  - reflexivity.
  - vm_compute. reflexivity.
  - reflexivity.
  - reflexivity.
Defined.

Lemma invalid_url_no_call_witness :
  no_outbound
    (trace (serve Demo.json_Decode Demo.json_Encode Scenario.no_url
              Scenario.good (Scenario.post "openai"))) /\
  exists w,
    outcome (serve Demo.json_Decode Demo.json_Encode Scenario.no_url
               Scenario.good (Scenario.post "openai")) = Done w /\
    w_Status w = Some StatusInternalServerError /\
    w_Body w = "Error fetching PR changes: " ++ "invalid URL escape" ++ LF.
Proof.
  apply (@invalid_url_no_call Demo.json_Decode Demo.json_Encode Scenario.no_url
           Scenario.good (Scenario.post "openai")
           (mkPRAnalysisRequest "octocat" "hello" 7 "openai")
           (errorString "invalid URL escape")).
  - split; vm_compute; reflexivity.
  - reflexivity.
  - vm_compute. reflexivity.
  - reflexivity.
Defined.

Lemma body_read_error_swallowed_witness :
  io_ReadAll Scenario.broken_diff = Err (errorString "unexpected EOF") /\
  Demo.fetch "octocat" "hello" 7 Scenario.truncated
  = ([LogLine ("Fetching PR changes for " ++ "octocat" ++ "/" ++ "hello" ++ " #" ++ itoa 7);
      GithubCall (diff_request Scenario.truncated "octocat" "hello" 7);
      LogLine "PR changes fetched successfully";
      BodyClosed],
     Done (Ok (delivered Scenario.broken_diff))).
Proof.
  split; [reflexivity|].
  apply (@body_read_error_swallowed Demo.url_Parse "octocat" "hello" 7 Scenario.truncated
           (mkResponse 200 Scenario.broken_diff)); reflexivity.
Defined.

Lemma body_closed_once_on_return_witness :
  filter is_body_closed (trace (Demo.fetch "octocat" "hello" 7 Scenario.good))
  = if existsb is_outbound (trace (Demo.fetch "octocat" "hello" 7 Scenario.good))
    then match github Scenario.good (diff_request Scenario.good "octocat" "hello" 7) with
         | Ok _ => [BodyClosed]
         | Err _ => []
         end
    else [].
Proof.
  apply (@body_closed_once_on_return Demo.url_Parse "octocat" "hello" 7 Scenario.good
           (Ok "diff --git a/x b/x+y")).
  vm_compute. reflexivity.
Defined.

Lemma hosting_call_shape_witness :
  authenticated Scenario.good (Scenario.post "claude") /\
  exists req,
    Demo.json_Decode (Body (Scenario.post "claude")) = Ok req /\
    diff_request Scenario.good "octocat" "hello" 7
    = diff_request Scenario.good (Owner req) (Repo req) (PRNumber req) /\
    Method (diff_request Scenario.good "octocat" "hello" 7) = "GET" /\
    URL (diff_request Scenario.good "octocat" "hello" 7)
    = "https://api.github.com/repos/" ++ Owner req ++ "/" ++ Repo req
      ++ "/pulls/" ++ itoa (PRNumber req) /\
    Header_Get (Header (diff_request Scenario.good "octocat" "hello" 7)) "Authorization"
    = "token " ++ environ Scenario.good "GITHUB_TOKEN" /\
    Header_Get (Header (diff_request Scenario.good "octocat" "hello" 7)) "Accept"
    = "application/vnd.github.v3.diff" /\
    Header_Get (Header (diff_request Scenario.good "octocat" "hello" 7)) "X-API-Key" = "".
Proof.
  apply (@hosting_call_shape Demo.json_Decode Demo.json_Encode Demo.url_Parse
           Scenario.good (Scenario.post "claude")
           (diff_request Scenario.good "octocat" "hello" 7)).
  vm_compute. right. left. reflexivity.
Defined.

Lemma provider_call_shape_witness :
  authenticated Scenario.good (Scenario.post "openai") /\
  Method (Scenario.post "openai") = MethodPost /\
  exists req resp,
    Demo.json_Decode (Body (Scenario.post "openai")) = Ok req /\
    ModelType req = "openai" /\
    github Scenario.good (diff_request Scenario.good (Owner req) (Repo req) (PRNumber req))
    = Ok resp /\
    StatusCode resp = StatusOK /\
    "sk-demo" = environ Scenario.good "OPENAI_API_KEY" /\
    review_request "diff --git a/x b/x+y"
    = mkChatRequest "gpt-4"
        [mkMessage "user"
           ("Please analyze the following code changes and provide a detailed review:"
            ++ LF ++ LF ++ delivered (RespBody resp))].
Proof.
  apply (@provider_call_shape Demo.json_Decode Demo.json_Encode Demo.url_Parse
           Scenario.good (Scenario.post "openai")
           "sk-demo" (review_request "diff --git a/x b/x+y")).
  vm_compute. do 4 right. left. reflexivity.
Defined.

Lemma provider_error_surfaces_witness :
  exists w,
    outcome (Demo.route Scenario.provider_down (Scenario.post "openai")) = Done w /\
    w_Status w = Some StatusInternalServerError /\
    w_Body w = "Error analyzing changes: " ++ "status code: 429" ++ LF.
Proof.
  apply (@provider_error_surfaces Demo.json_Decode Demo.json_Encode Demo.url_Parse
           Scenario.provider_down (Scenario.post "openai")
           (mkPRAnalysisRequest "octocat" "hello" 7 "openai")
           "diff --git a/x b/x+y" (errorString "status code: 429")).
  - split; vm_compute; reflexivity.
  - reflexivity.
  - vm_compute. reflexivity.
  - reflexivity.
  - vm_compute. reflexivity.
  - reflexivity.
Defined.


Lemma panic_only_on_empty_choices_witness :
  "runtime error: index out of range [0] with length 0"
  = "runtime error: index out of range [0] with length 0" /\
  authenticated Scenario.choiceless (Scenario.post "openai") /\
  Method (Scenario.post "openai") = MethodPost /\
  exists req changes cresp,
    Demo.json_Decode (Body (Scenario.post "openai")) = Ok req /\
    ModelType req = "openai" /\
    outcome (Demo.fetch (Owner req) (Repo req) (PRNumber req) Scenario.choiceless)
    = Done (Ok changes) /\
    openai Scenario.choiceless (environ Scenario.choiceless "OPENAI_API_KEY")
      (review_request changes) = Ok cresp /\
    Choices cresp = [].
Proof.
  apply (@panic_only_on_empty_choices Demo.json_Decode Demo.json_Encode Demo.url_Parse
           Scenario.choiceless (Scenario.post "openai")
           "runtime error: index out of range [0] with length 0").
  vm_compute. reflexivity.
Defined.

Lemma no_config_no_call_witness :
  (forall owner repo prNumber,
     no_outbound (trace (Demo.fetch owner repo prNumber Scenario.no_env)) /\
     outcome (Demo.fetch owner repo prNumber Scenario.no_env)
     = Done (Err (errorString ("error loading .env file: "
                               ++ "open .env: no such file or directory")))) /\
  (forall changes modelType,
     analyzeChanges changes modelType Scenario.no_env
     = ([], Done (Err (errorString ("error loading .env file: "
                                    ++ "open .env: no such file or directory"))))).
Proof.
  apply (@no_config_no_call Demo.url_Parse Scenario.no_env
           (errorString "open .env: no such file or directory")).
  reflexivity.
Defined.

Lemma ok_only_when_analysed_witness :
  authenticated Scenario.good (Scenario.post "openai") /\
  Method (Scenario.post "openai") = MethodPost /\
  exists req resp cresp choice rest,
    Demo.json_Decode (Body (Scenario.post "openai")) = Ok req /\
    ModelType req = "openai" /\
    github Scenario.good (diff_request Scenario.good (Owner req) (Repo req) (PRNumber req))
    = Ok resp /\
    StatusCode resp = StatusOK /\
    openai Scenario.good (environ Scenario.good "OPENAI_API_KEY")
      (review_request (delivered (RespBody resp))) = Ok cresp /\
    Choices cresp = choice :: rest /\
    w_Body Scenario.reviewed
    = Demo.json_Encode (mkPRAnalysisResponse (Content (Message choice))
                          (clock Scenario.good) "openai").
Proof.
  apply (@ok_only_when_analysed Demo.json_Decode Demo.json_Encode Demo.url_Parse
           Scenario.good (Scenario.post "openai") Scenario.reviewed).
  - vm_compute. reflexivity.
  - reflexivity.
Defined.

Lemma rejection_reasons_witness :
  dotenv Scenario.good = None /\
  Header_Get (Header (Demo.request_of "GET" None "openai")) "X-API-Key"
  <> environ Scenario.good "API_KEY".
Proof.
  apply (@rejection_reasons Demo.json_Decode Demo.json_Encode Demo.url_Parse
           Scenario.good (Demo.request_of "GET" None "openai") Scenario.unauthorized).
  - vm_compute. reflexivity.
  - reflexivity.
Defined.

Lemma read_loop_agrees_with_ReadAll_witness :
  read_loop Demo.diff_body "" = "diff --git a/x b/x+y".
Proof.
  apply (@read_loop_agrees_with_ReadAll Demo.diff_body "diff --git a/x b/x+y").
  reflexivity.
Defined.


Lemma main_exits_on_failure_witness :
  main Demo.json_Decode Demo.json_Encode Demo.url_Parse Scenario.busy Scenario.no_env
  = ([LogLine ("Failed to load configuration: error loading .env file: "
               ++ "open .env: no such file or directory")],
     Exit 1).
Proof.
  apply (proj2 (proj2 (@main_exits_on_failure
                         Demo.json_Decode Demo.json_Encode Demo.url_Parse
                         Scenario.busy Scenario.no_env))
               (errorString "open .env: no such file or directory")).
  reflexivity.
Defined.

Lemma request_relevant_parts_witness :
  Demo.route Scenario.good (Scenario.post "openai")
  = Demo.route Scenario.good
      (mkRequest "POST" "/analyze-pr?verbose=1"
         [("Content-Type", ["text/plain"]); ("X-Api-Key", ["s3cret"])]
         (Demo.body_of "openai")).
Proof.
  apply (@request_relevant_parts Demo.json_Decode Demo.json_Encode Demo.url_Parse
           Scenario.good (Scenario.post "openai")
           (mkRequest "POST" "/analyze-pr?verbose=1"
              [("Content-Type", ["text/plain"]); ("X-Api-Key", ["s3cret"])]
              (Demo.body_of "openai")));
    reflexivity.
Defined.
